(** * Product popup: variant resolution and cart submission

    A shallow embedding of [assets/product-popup.js].

    The script keeps its state in module-level variables and reacts to DOM
    events and to the settlement of the network requests it issued.  It is
    modelled as a transition function [step] on a [State] record: one
    transition per event-loop task (a user event, a timer, or the
    settlement of one request together with the promise callbacks that run
    in the same microtask checkpoint).  Every outgoing request, notification
    and console message is appended to a log.

    Strings are sequences of ASCII characters; [toLowerCase] and
    [toUpperCase] act on the letters A-Z / a-z and leave every other
    character unchanged. *)

From Stdlib Require Import String Ascii ZArith List Bool Lia.
From stdpp Require Import gmap strings list fin_maps.

Local Open Scope Z_scope.
Local Open Scope nat_scope.

(** ** Strings *)

Definition isUpper (c : ascii) : bool :=
  (65 <=? nat_of_ascii c) && (nat_of_ascii c <=? 90).

Definition isLower (c : ascii) : bool :=
  (97 <=? nat_of_ascii c) && (nat_of_ascii c <=? 122).

Definition lowerChar (c : ascii) : ascii :=
  if isUpper c then ascii_of_nat (nat_of_ascii c + 32) else c.

Definition upperChar (c : ascii) : ascii :=
  if isLower c then ascii_of_nat (nat_of_ascii c - 32) else c.

(** [String.prototype.toLowerCase] *)
Fixpoint toLowerCase (s : string) : string :=
  match s with
  | EmptyString => EmptyString
  | String c rest => String (lowerChar c) (toLowerCase rest)
  end.

(** [String.prototype.toUpperCase] *)
Fixpoint toUpperCase (s : string) : string :=
  match s with
  | EmptyString => EmptyString
  | String c rest => String (upperChar c) (toUpperCase rest)
  end.

(** Two characters are the same letter when they are equal or when one is
    an upper-case letter and the other the corresponding lower-case one.
    This is the reading of "equal case-insensitively" that the statements
    below use; it is defined without reference to [toLowerCase]. *)
Definition sameLetter (x y : ascii) : bool :=
  Ascii.eqb x y
  || (isUpper x && (nat_of_ascii y =? nat_of_ascii x + 32))
  || (isUpper y && (nat_of_ascii x =? nat_of_ascii y + 32)).

Fixpoint equalIgnoringCase (a b : string) : bool :=
  match a, b with
  | EmptyString, EmptyString => true
  | String x a', String y b' => sameLetter x y && equalIgnoringCase a' b'
  | _, _ => false
  end.

(** ** JavaScript values and completions *)

Inductive JsError :=
  | TypeError (message : string)
  | Error (message : string).

Definition message (e : JsError) : string :=
  match e with TypeError m => m | Error m => m end.

(** A call either returns or throws. *)
Inductive Completion (A : Type) :=
  | Normal (value : A)
  | Throw (error : JsError).
Arguments Normal {A} value.
Arguments Throw {A} error.

(** The message of the [TypeError] raised when a property is read from
    [null] or [undefined]. *)
Definition cannotRead (what prop : string) : string :=
  "Cannot read properties of " +:+ what +:+ " (reading '" +:+ prop +:+ "')".

(** Truthiness of a value that is a string, [null] or [undefined]. *)
Definition truthy (v : option string) : bool :=
  match v with
  | Some s => negb (String.eqb s "")
  | None => false
  end.

(** ** Data model *)

Module Variant.
(** One entry of [product.variants]; an option value that is [null] or
    absent is [None]. *)
Record t := mk {
  id : Z;
  option1 : option string;
  option2 : option string
}.
End Variant.

Module Product.
Record t := mk {
  handle : string;
  variants : list Variant.t
}.
End Product.

(** ** Variant lookup *)

(** The callback passed to [Array.prototype.find] in [findMatchingVariant]. *)
Definition matchesSelection (color size : string) (variant : Variant.t) : bool :=
  let variantColor :=
    if truthy (Variant.option1 variant)
    then toLowerCase (default "" (Variant.option1 variant)) else "" in
  let variantSize :=
    if truthy (Variant.option2 variant)
    then toUpperCase (default "" (Variant.option2 variant)) else "" in
  String.eqb variantColor (toLowerCase color) && String.eqb variantSize size.

(** [findMatchingVariant(product, color, size)]: [None] is [undefined].
    Reading [product.variants] throws when [product] is [null]. *)
Definition findMatchingVariant (product : option Product.t) (color size : string)
  : Completion (option Variant.t) :=
  match product with
  | None => Throw (TypeError (cannotRead "null" "variants"))
  | Some p => Normal (find (matchesSelection color size) (Product.variants p))
  end.

(** ** The bundle rule *)

(** The test guarding [autoAddSoftWinterJacket] in [handleAddToCart]:
    [selectedColor.toLowerCase() === 'black' && selectedSize === 'M'].
    The receiver of [toLowerCase] is [selectedColor] itself, so a [null]
    colour throws before the size is looked at; a [null] size merely
    compares unequal. *)
Definition bundleTest (selectedColor selectedSize : option string) : Completion bool :=
  match selectedColor with
  | None => Throw (TypeError (cannotRead "null" "toLowerCase"))
  | Some c =>
      Normal (String.eqb (toLowerCase c) "black"
              && match selectedSize with
                 | Some s => String.eqb s "M"
                 | None => false
                 end)
  end.


(** ** Network outcomes *)

(** What comes back from one [fetch]: either the request itself fails, or a
    response arrives with its [ok] flag and the completion of
    [response.json()]. *)
Inductive FetchOutcome (A : Type) :=
  | FetchFailed (reason : JsError)
  | Response (ok : bool) (body : Completion A).
Arguments FetchFailed {A} reason.
Arguments Response {A} ok body.

Inductive Settled (A : Type) :=
  | Fulfilled (value : A)
  | Rejected (reason : JsError).
Arguments Fulfilled {A} value.
Arguments Rejected {A} reason.

(** The shape shared by [fetchProductData], [addToCart] and the first
    callback of [autoAddSoftWinterJacket]:
    [if (!response.ok) throw new Error(notOk); return response.json();] *)
Definition settle {A} (notOk : string) (o : FetchOutcome A) : Settled A :=
  match o with
  | FetchFailed e => Rejected e
  | Response false _ => Rejected (Error notOk)
  | Response true (Throw e) => Rejected e
  | Response true (Normal body) => Fulfilled body
  end.

Definition fetchProductDataResult := @settle Product.t "Product not found".
Definition addToCartResult := @settle unit "Failed to add to cart".
Definition jacketFetchResult := @settle Product.t "Soft Winter Jacket product not found".

(** ** Observable effects *)

Inductive NotificationType := success | error.

Inductive Effect :=
  | CartAdd (variantId : Z) (quantity : Z)       (* POST /cart/add.js *)
  | ProductFetch (handle : string)               (* GET /products/<handle>.js *)
  | CartFetch                                    (* GET /cart.js *)
  | Notification (text : string) (type : NotificationType)
  | ConsoleLog (text : string)
  | ConsoleError (label detail : string).

(** Who caused an effect: the popup itself, or the n-th invocation of
    [handleAddToCart] and the promise chain it started. *)
Inductive Origin :=
  | Popup
  | Submission (n : nat).

Definition isSubmission (n : nat) (o : Origin) : bool :=
  match o with
  | Submission m => n =? m
  | Popup => false
  end.

(** ** State *)

(** Where the promise chain of a submission is suspended. *)
Inductive Stage :=
  | AwaitPrimary      (* addToCart(variant.id) *)
  | AwaitJacket       (* fetch('/products/dark-winter-jacket.js') *)
  | AwaitBundleAdd.   (* addToCart(variantId, 1) for the jacket *)

Definition SIZE_OPTIONS : list string := ["XS"; "S"; "M"; "L"; "XL"]%string.

Record State := mkState {
  currentProduct : option Product.t;
  selectedColor : option string;
  selectedSize : option string;
  modalActive : bool;             (* the overlay carries class 'active' *)
  buttonDisabled : bool;          (* addToCartBtn.disabled *)
  colorButtons : list string;     (* data-color of the rendered buttons *)
  sizeOptions : list string;      (* option values of the size select *)
  pendingOpens : nat;             (* product fetches of openProductPopup *)
  closeTimers : nat;              (* pending setTimeout(closePopup) *)
  submissions : nat;              (* invocations of handleAddToCart so far *)
  inflight : gmap nat Stage;      (* suspended promise chains *)
  log : list (Origin * Effect)
}.

(** The state once [initializePopup] has run. *)
Definition initialState : State :=
  {| currentProduct := None; selectedColor := None; selectedSize := None;
     modalActive := false; buttonDisabled := false;
     colorButtons := []; sizeOptions := [""%string];
     pendingOpens := 0; closeTimers := 0; submissions := 0;
     inflight := ∅; log := [] |}.

Definition setGlobals (p : option Product.t) (c sz : option string) (s : State) : State :=
  mkState p c sz (modalActive s) (buttonDisabled s) (colorButtons s)
    (sizeOptions s) (pendingOpens s) (closeTimers s) (submissions s)
    (inflight s) (log s).

Definition setModalActive (b : bool) (s : State) : State :=
  mkState (currentProduct s) (selectedColor s) (selectedSize s) b
    (buttonDisabled s) (colorButtons s) (sizeOptions s) (pendingOpens s)
    (closeTimers s) (submissions s) (inflight s) (log s).

Definition setButtonDisabled (b : bool) (s : State) : State :=
  mkState (currentProduct s) (selectedColor s) (selectedSize s)
    (modalActive s) b (colorButtons s) (sizeOptions s) (pendingOpens s)
    (closeTimers s) (submissions s) (inflight s) (log s).

Definition setControls (colors sizes : list string) (s : State) : State :=
  mkState (currentProduct s) (selectedColor s) (selectedSize s)
    (modalActive s) (buttonDisabled s) colors sizes (pendingOpens s)
    (closeTimers s) (submissions s) (inflight s) (log s).

Definition setPendingOpens (k : nat) (s : State) : State :=
  mkState (currentProduct s) (selectedColor s) (selectedSize s)
    (modalActive s) (buttonDisabled s) (colorButtons s) (sizeOptions s) k
    (closeTimers s) (submissions s) (inflight s) (log s).

Definition setCloseTimers (k : nat) (s : State) : State :=
  mkState (currentProduct s) (selectedColor s) (selectedSize s)
    (modalActive s) (buttonDisabled s) (colorButtons s) (sizeOptions s)
    (pendingOpens s) k (submissions s) (inflight s) (log s).

Definition setSubmissions (k : nat) (s : State) : State :=
  mkState (currentProduct s) (selectedColor s) (selectedSize s)
    (modalActive s) (buttonDisabled s) (colorButtons s) (sizeOptions s)
    (pendingOpens s) (closeTimers s) k (inflight s) (log s).

Definition setInflight (m : gmap nat Stage) (s : State) : State :=
  mkState (currentProduct s) (selectedColor s) (selectedSize s)
    (modalActive s) (buttonDisabled s) (colorButtons s) (sizeOptions s)
    (pendingOpens s) (closeTimers s) (submissions s) m (log s).

Definition emit (o : Origin) (e : Effect) (s : State) : State :=
  mkState (currentProduct s) (selectedColor s) (selectedSize s)
    (modalActive s) (buttonDisabled s) (colorButtons s) (sizeOptions s)
    (pendingOpens s) (closeTimers s) (submissions s) (inflight s)
    (log s ++ [(o, e)]).

(** ** The functions of the script *)

Definition showNotification (o : Origin) (text : string) (type : NotificationType)
  : State -> State :=
  emit o (Notification text type).

Definition updateAddToCartButton (s : State) : State :=
  if truthy (selectedColor s) && truthy (selectedSize s)
  then setButtonDisabled false s
  else setButtonDisabled true s.

(** The colours collected by [renderColorVariants]: the truthy [option1]
    values in first-occurrence order (a [Set] iterates in insertion order). *)
Definition renderColorVariants (product : Product.t) : list string :=
  fold_left
    (fun colors variant =>
       match Variant.option1 variant with
       | Some c =>
           if truthy (Some c) && negb (existsb (String.eqb c) colors)
           then colors ++ [c] else colors
       | None => colors
       end)
    (Product.variants product) [].

Definition populateSizeDropdown (s : State) : State :=
  setControls (colorButtons s) (""%string :: SIZE_OPTIONS) s.

Definition renderPopupContent (product : Product.t) (s : State) : State :=
  let s := setGlobals (currentProduct s) None None s in
  let s := setControls (renderColorVariants product) (sizeOptions s) s in
  let s := populateSizeDropdown s in
  updateAddToCartButton s.

Definition showPopup : State -> State := setModalActive true.

Definition closePopup (s : State) : State :=
  setGlobals None None None (setModalActive false s).

Definition openProductPopup (handle : string) (s : State) : State :=
  emit Popup (ProductFetch handle) (setPendingOpens (S (pendingOpens s)) s).

(** The [.then] / [.catch] of [openProductPopup]. *)
Definition productFetched (o : FetchOutcome Product.t) (s : State) : State :=
  match pendingOpens s with
  | O => s
  | S k =>
      let s := setPendingOpens k s in
      match fetchProductDataResult o with
      | Fulfilled product =>
          let s := setGlobals (Some product) (selectedColor s) (selectedSize s) s in
          showPopup (renderPopupContent product s)
      | Rejected e =>
          let s := emit Popup (ConsoleError "Error fetching product:" (message e)) s in
          showNotification Popup "Failed to load product. Please try again." error s
      end
  end.

Definition selectColor (color : string) (s : State) : State :=
  updateAddToCartButton
    (setGlobals (currentProduct s) (Some color) (selectedSize s) s).

(** The [change] listener of the size select. *)
Definition sizeChanged (value : string) (s : State) : State :=
  updateAddToCartButton
    (setGlobals (currentProduct s) (selectedColor s) (Some value) s).

(** [addToCart(variantId, quantity)] with [quantity = quantity || 1]. *)
Definition addToCart (o : Origin) (variantId : Z) (quantity : option Z)
  : State -> State :=
  let quantity :=
    match quantity with
    | Some q => if (q =? 0)%Z then 1%Z else q
    | None => 1%Z
    end in
  emit o (CartAdd variantId quantity).

(** [updateCartCount]: the response only rewrites badge text. *)
Definition updateCartCount (o : Origin) : State -> State := emit o CartFetch.

(** The [.finally] callback of [handleAddToCart]. *)
Definition finally (n : nat) (s : State) : State :=
  setInflight (delete n (inflight s)) (setButtonDisabled false s).

(** The second [.then] callback of [handleAddToCart], then [.finally]. *)
Definition onFulfilled (n : nat) (s : State) : State :=
  let s := showNotification (Submission n) "Added to cart" success s in
  let s := updateCartCount (Submission n) s in
  let s := setCloseTimers (S (closeTimers s)) s in
  finally n s.

(** The [.catch] callback of [handleAddToCart], then [.finally]. *)
Definition onRejected (n : nat) (e : JsError) (s : State) : State :=
  let s := emit (Submission n) (ConsoleError "Add to cart error:" (message e)) s in
  let s := showNotification (Submission n)
             ("A problem happened. Error: " +:+ message e) error s in
  finally n s.

(** The [.catch] callback of [autoAddSoftWinterJacket]; the promise it
    returns is fulfilled, so the chain of [handleAddToCart] goes on with
    its second [.then]. *)
Definition bundleCatch (n : nat) (e : JsError) (s : State) : State :=
  onFulfilled n
    (emit (Submission n)
       (ConsoleError "Failed to auto-add Soft Winter Jacket:" (message e)) s).

Definition autoAddSoftWinterJacket (n : nat) (s : State) : State :=
  let s := emit (Submission n)
             (ConsoleLog "Special logic triggered: Adding Soft Winter Jacket") s in
  let s := emit (Submission n) (ProductFetch "dark-winter-jacket") s in
  setInflight (<[n := AwaitJacket]> (inflight s)) s.

Definition handleAddToCart (s : State) : State :=
  let n := submissions s in
  let s := setSubmissions (S n) s in
  if negb (truthy (selectedColor s)) || negb (truthy (selectedSize s))
  then showNotification (Submission n) "Please select both color and size" error s
  else
    match findMatchingVariant (currentProduct s)
            (default ""%string (selectedColor s))
            (default ""%string (selectedSize s)) with
    | Throw e => emit (Submission n) (ConsoleError "Uncaught" (message e)) s
    | Normal None =>
        showNotification (Submission n) "This combination is not available" error s
    | Normal (Some variant) =>
        let s := setButtonDisabled true s in
        let s := addToCart (Submission n) (Variant.id variant) None s in
        setInflight (<[n := AwaitPrimary]> (inflight s)) s
    end.

(** Settlement of the primary [addToCart]: the first [.then] callback runs
    and reads the module-level selection as it is at that moment. *)
Definition primaryAddSettled (n : nat) (o : FetchOutcome unit) (s : State) : State :=
  match inflight s !! n with
  | Some AwaitPrimary =>
      match addToCartResult o with
      | Rejected e => onRejected n e s
      | Fulfilled _ =>
          match bundleTest (selectedColor s) (selectedSize s) with
          | Throw e => onRejected n e s
          | Normal true => autoAddSoftWinterJacket n s
          | Normal false => onFulfilled n s
          end
      end
  | _ => s
  end.

(** Settlement of the jacket fetch: [jacket.variants[0].id] throws on an
    empty list. *)
Definition jacketFetchSettled (n : nat) (o : FetchOutcome Product.t) (s : State) : State :=
  match inflight s !! n with
  | Some AwaitJacket =>
      match jacketFetchResult o with
      | Rejected e => bundleCatch n e s
      | Fulfilled jacket =>
          match Product.variants jacket with
          | [] => bundleCatch n (TypeError (cannotRead "undefined" "id")) s
          | first :: _ =>
              let s := addToCart (Submission n) (Variant.id first) (Some 1%Z) s in
              setInflight (<[n := AwaitBundleAdd]> (inflight s)) s
          end
      end
  | _ => s
  end.

Definition bundleAddSettled (n : nat) (o : FetchOutcome unit) (s : State) : State :=
  match inflight s !! n with
  | Some AwaitBundleAdd =>
      match addToCartResult o with
      | Rejected e => bundleCatch n e s
      | Fulfilled _ => onFulfilled n s
      end
  | _ => s
  end.

(** ** Events *)

Inductive Event :=
  | OpenProductPopup (handle : string)
  | ProductFetched (o : FetchOutcome Product.t)
  | ClickColor (color : string)
  | ChangeSize (value : string)
  | ClickAddToCart
  | ClickClose                   (* close button, or a click on the overlay *)
  | PressEscape
  | CloseTimerFires
  | PrimaryAddSettled (n : nat) (o : FetchOutcome unit)
  | JacketFetchSettled (n : nat) (o : FetchOutcome Product.t)
  | BundleAddSettled (n : nat) (o : FetchOutcome unit).

(** A control only produces the events the document allows: a colour button
    must have been rendered, a size must be an option of the select, and a
    disabled button does not dispatch [click]. *)
Definition step (s : State) (ev : Event) : State :=
  match ev with
  | OpenProductPopup handle => openProductPopup handle s
  | ProductFetched o => productFetched o s
  | ClickColor color =>
      if existsb (String.eqb color) (colorButtons s) then selectColor color s else s
  | ChangeSize value =>
      if existsb (String.eqb value) (sizeOptions s) then sizeChanged value s else s
  | ClickAddToCart => if buttonDisabled s then s else handleAddToCart s
  | ClickClose => closePopup s
  | PressEscape => if modalActive s then closePopup s else s
  | CloseTimerFires =>
      match closeTimers s with
      | O => s
      | S k => closePopup (setCloseTimers k s)
      end
  | PrimaryAddSettled n o => primaryAddSettled n o s
  | JacketFetchSettled n o => jacketFetchSettled n o s
  | BundleAddSettled n o => bundleAddSettled n o s
  end.

Definition run (s : State) (evs : list Event) : State := fold_left step evs s.

Definition Reachable (s : State) : Prop := exists evs, s = run initialState evs.

(** The submission an event settles a request of, if any. *)
Definition settles (ev : Event) : option nat :=
  match ev with
  | PrimaryAddSettled n _ | JacketFetchSettled n _ | BundleAddSettled n _ => Some n
  | _ => None
  end.

(** No event of the list settles a request of submission [n]. *)
Definition quiet (n : nat) (evs : list Event) : Prop :=
  Forall (fun ev => settles ev <> Some n) evs.

(** The effects of submission [n], oldest first. *)
Fixpoint effectsFrom (n : nat) (l : list (Origin * Effect)) : list Effect :=
  match l with
  | [] => []
  | (o, e) :: rest =>
      if isSubmission n o then e :: effectsFrom n rest else effectsFrom n rest
  end.

Definition effectsOf (n : nat) (s : State) : list Effect := effectsFrom n (log s).

Definition isCartAdd (e : Effect) : bool :=
  match e with CartAdd _ _ => true | _ => false end.

(** All cart additions requested so far, whoever requested them. *)
Definition cartAdds (s : State) : list Effect :=
  List.filter isCartAdd (map snd (log s)).

(** ** Vocabulary of the statements *)

(** The label an option value stands for; a missing value counts as the
    empty string. *)
Definition label (o : option string) : string := default ""%string o.

(** A variant with its missing option values written out as empty strings. *)
Definition fillMissing (v : Variant.t) : Variant.t :=
  Variant.mk (Variant.id v)
    (Some (label (Variant.option1 v))) (Some (label (Variant.option2 v))).




(** Clicking the add-to-cart button in state [s] starts the primary add of
    variant [v]: the selection is complete and resolves to [v]. *)
Definition Submits (s : State) (v : Variant.t) : Prop :=
  truthy (selectedColor s) && truthy (selectedSize s) = true
  /\ findMatchingVariant (currentProduct s)
       (label (selectedColor s)) (label (selectedSize s)) = Normal (Some v).

(** Submission [n] exists in [s], its promise chain is suspended at [stage]
    ([None] once it has run to its end), and [es] is everything it has done. *)
Definition Chain (n : nat) (stage : option Stage) (es : list Effect) (s : State) : Prop :=
  n < submissions s /\ inflight s !! n = stage /\ effectsOf n s = es.

(** [s'] differs from [s] only in what the page shows and selects. *)
Definition SameChains (s s' : State) : Prop :=
  submissions s' = submissions s /\ inflight s' = inflight s /\ log s' = log s.

(** Identifiers not handed out yet have neither a chain nor effects. *)
Definition Fresh (s : State) : Prop :=
  forall m, submissions s <= m -> inflight s !! m = None /\ effectsOf m s = [].

(** What the [.catch] of the bundle step and the rest of the chain add to
    the effects of a submission whose bundle step failed with [e]. *)
Definition swallowed (e : JsError) : list Effect :=
  [ConsoleError "Failed to auto-add Soft Winter Jacket:" (message e);
   Notification "Added to cart" success; CartFetch].

(** What a chain has done when its primary add is over and the bundle rule
    has triggered. *)
Definition bundleStarted (v : Variant.t) : list Effect :=
  [CartAdd (Variant.id v) 1%Z;
   ConsoleLog "Special logic triggered: Adding Soft Winter Jacket";
   ProductFetch "dark-winter-jacket"].

Definition isErrorNotification (e : Effect) : bool :=
  match e with Notification _ error => true | _ => false end.

(** The ways the secondary step of submission [n] can fail once the jacket
    fetch is under way: the fetch is rejected, the jacket has no variant, or
    the second [addToCart] is rejected.  Other events may come in between. *)
Inductive BundleFails (n : nat) : list Event -> list Effect -> JsError -> Prop :=
  | JacketFetchFails mid o e :
      quiet n mid ->
      jacketFetchResult o = Rejected e ->
      BundleFails n (mid ++ [JacketFetchSettled n o]) [] e
  | JacketHasNoVariant mid o jacket :
      quiet n mid ->
      jacketFetchResult o = Fulfilled jacket ->
      Product.variants jacket = [] ->
      BundleFails n (mid ++ [JacketFetchSettled n o]) []
        (TypeError (cannotRead "undefined" "id"))
  | BundleAddFails mid o jacket first others mid' o' e :
      quiet n mid ->
      jacketFetchResult o = Fulfilled jacket ->
      Product.variants jacket = first :: others ->
      quiet n mid' ->
      addToCartResult o' = Rejected e ->
      BundleFails n
        (mid ++ [JacketFetchSettled n o] ++ mid' ++ [BundleAddSettled n o'])
        [CartAdd (Variant.id first) 1%Z] e.

(** ** A sample session *)

(** A product with the variants (Black, S), (Black, M) and (White, M). *)
Definition blackM : Variant.t := Variant.mk 12 (Some "Black"%string) (Some "M"%string).

Definition tee : Product.t :=
  Product.mk "tee"
    [Variant.mk 11 (Some "Black"%string) (Some "S"%string);
     blackM;
     Variant.mk 13 (Some "White"%string) (Some "M"%string)].

(** A response with [ok] set and a body that parses. *)
Definition okResponse {A} (body : A) : FetchOutcome A := Response true (Normal body).

(** The popup is opened on the product. *)
Definition opened : list Event :=
  [OpenProductPopup "tee"; ProductFetched (okResponse tee)].

(** ... and black and M are chosen. *)
Definition blackMChosen : list Event :=
  opened ++ [ClickColor "Black"; ChangeSize "M"].

(** ** Vocabulary of the further properties *)

(** The string contains one of the letters a-z. *)
Fixpoint hasLowerCaseLetter (s : string) : bool :=
  match s with
  | EmptyString => false
  | String c rest => isLower c || hasLowerCaseLetter rest
  end.

Definition isNotification (e : Effect) : bool :=
  match e with Notification _ _ => true | _ => false end.

(** The complete histories of a submission whose chain has come to its
    end, one constructor per way through [handleAddToCart] and
    [autoAddSoftWinterJacket]. *)
Inductive Finished : list Effect -> Prop :=
  | TurnedDown text :
      text = "Please select both color and size"%string
      \/ text = "This combination is not available"%string ->
      Finished [Notification text error]
  | HandlerThrew detail :
      Finished [ConsoleError "Uncaught" detail]
  | PrimaryFailed variantId detail :
      Finished
        [CartAdd variantId 1%Z;
         ConsoleError "Add to cart error:" detail;
         Notification ("A problem happened. Error: " +:+ detail) error]
  | PlainSuccess variantId :
      Finished
        [CartAdd variantId 1%Z; Notification "Added to cart" success; CartFetch]
  | BundleSuccess variantId jacketId :
      Finished
        [CartAdd variantId 1%Z;
         ConsoleLog "Special logic triggered: Adding Soft Winter Jacket";
         ProductFetch "dark-winter-jacket";
         CartAdd jacketId 1%Z;
         Notification "Added to cart" success; CartFetch]
  | BundleFailedBeforeAdd variantId detail :
      Finished
        [CartAdd variantId 1%Z;
         ConsoleLog "Special logic triggered: Adding Soft Winter Jacket";
         ProductFetch "dark-winter-jacket";
         ConsoleError "Failed to auto-add Soft Winter Jacket:" detail;
         Notification "Added to cart" success; CartFetch]
  | BundleAddFailed variantId jacketId detail :
      Finished
        [CartAdd variantId 1%Z;
         ConsoleLog "Special logic triggered: Adding Soft Winter Jacket";
         ProductFetch "dark-winter-jacket";
         CartAdd jacketId 1%Z;
         ConsoleError "Failed to auto-add Soft Winter Jacket:" detail;
         Notification "Added to cart" success; CartFetch].

(** What a submission has done, given where its chain stands. *)
Definition History (stage : option Stage) (es : list Effect) : Prop :=
  match stage with
  | Some AwaitPrimary => exists variantId, es = [CartAdd variantId 1%Z]
  | Some AwaitJacket =>
      exists variantId,
        es = [CartAdd variantId 1%Z;
              ConsoleLog "Special logic triggered: Adding Soft Winter Jacket";
              ProductFetch "dark-winter-jacket"]
  | Some AwaitBundleAdd =>
      exists variantId jacketId,
        es = [CartAdd variantId 1%Z;
              ConsoleLog "Special logic triggered: Adding Soft Winter Jacket";
              ProductFetch "dark-winter-jacket";
              CartAdd jacketId 1%Z]
  | None => Finished es
  end.

(** Every submission handed out so far has a history of the right shape. *)
Definition Orderly (s : State) : Prop :=
  Fresh s
  /\ forall n, n < submissions s -> History (inflight s !! n) (effectsOf n s).

(** A disabled button has a reason: the selection is incomplete or a
    submission is in flight. *)
Definition ButtonJustified (s : State) : Prop :=
  buttonDisabled s = true ->
  truthy (selectedColor s) && truthy (selectedSize s) = false
  \/ exists n stage, inflight s !! n = Some stage.

(** The selection only holds values the rendered controls offer, and the
    colour buttons are those of the current product. *)
Definition FromControls (s : State) : Prop :=
  (forall c, selectedColor s = Some c -> In c (colorButtons s))
  /\ (forall v, selectedSize s = Some v -> In v (sizeOptions s))
  /\ (forall p, currentProduct s = Some p -> colorButtons s = renderColorVariants p)
  /\ (sizeOptions s = [""%string] \/ sizeOptions s = ""%string :: SIZE_OPTIONS).

Definition isSuccessNotification (e : Effect) : bool :=
  match e with Notification _ success => true | _ => false end.

(** How many success notifications have been shown so far. *)
Definition successes (s : State) : nat :=
  length (List.filter isSuccessNotification (map snd (log s))).

(** Every pending close timer was set by a success. *)
Definition TimersAccounted (s : State) : Prop := closeTimers s <= successes s.

(** One step of the loop in [renderColorVariants]. *)
Definition addColor (colors : list string) (variant : Variant.t) : list string :=
  match Variant.option1 variant with
  | Some c =>
      if truthy (Some c) && negb (existsb (String.eqb c) colors)
      then colors ++ [c] else colors
  | None => colors
  end.

(** * Properties *)

(** ** Case conversion *)

Section CaseConversion.

Lemma nat_of_ascii_inj (x y : ascii) : nat_of_ascii x = nat_of_ascii y -> x = y.
Proof.
  intros H.
  rewrite <- (ascii_nat_embedding x), <- (ascii_nat_embedding y).
  now rewrite H.
Qed.

Lemma nat_of_lowerChar (c : ascii) :
  nat_of_ascii (lowerChar c)
  = if isUpper c then nat_of_ascii c + 32 else nat_of_ascii c.
Proof.
  unfold lowerChar.
  destruct (isUpper c) eqn:Hup; [|reflexivity].
  apply nat_ascii_embedding.
  unfold isUpper in Hup.
  apply andb_true_iff in Hup as [_ Hhi].
  apply Nat.leb_le in Hhi. lia.
Qed.

Lemma isUpper_range (c : ascii) :
  isUpper c = true <-> 65 <= nat_of_ascii c <= 90.
Proof.
  unfold isUpper.
  rewrite andb_true_iff, !Nat.leb_le. tauto.
Qed.

Lemma sameLetter_iff (x y : ascii) :
  sameLetter x y = true <-> lowerChar x = lowerChar y.
Proof.
  assert (Hinj : lowerChar x = lowerChar y
                 <-> nat_of_ascii (lowerChar x) = nat_of_ascii (lowerChar y)).
  { split; [congruence | apply nat_of_ascii_inj]. }
  rewrite Hinj, !nat_of_lowerChar.
  unfold sameLetter.
  rewrite !orb_true_iff, !andb_true_iff, !Nat.eqb_eq, Ascii.eqb_eq.
  assert (Hxy : x = y <-> nat_of_ascii x = nat_of_ascii y).
  { split; [congruence | apply nat_of_ascii_inj]. }
  rewrite Hxy.
  destruct (isUpper x) eqn:Hx, (isUpper y) eqn:Hy.
  - apply isUpper_range in Hx, Hy.
    split; [intros [[H|[_ H]]|[_ H]] | intros H; left; left]; lia.
  - apply isUpper_range in Hx.
    assert (Hny : ~ (65 <= nat_of_ascii y <= 90))
      by (rewrite <- isUpper_range; congruence).
    split.
    + intros [[H|[_ H]]|[H _]]; [lia | lia | discriminate].
    + intros H. left; right. split; [reflexivity | lia].
  - apply isUpper_range in Hy.
    assert (Hnx : ~ (65 <= nat_of_ascii x <= 90))
      by (rewrite <- isUpper_range; congruence).
    split.
    + intros [[H|[H _]]|[_ H]]; [lia | discriminate | lia].
    + intros H. right. split; [reflexivity | lia].
  - split.
    + intros [[H|[H _]]|[H _]]; [exact H | discriminate | discriminate].
    + intros H. left; left. exact H.
Qed.

Lemma equalIgnoringCase_iff (a b : string) :
  equalIgnoringCase a b = true <-> toLowerCase a = toLowerCase b.
Proof.
  revert b.
  induction a as [|x a IH]; intros [|y b]; simpl;
    try (split; [discriminate | congruence]); [tauto|].
  rewrite andb_true_iff, sameLetter_iff, IH.
  split; [intros [-> ->]; reflexivity | intros H; injection H; auto].
Qed.

Lemma toLowerCase_empty (a : string) : toLowerCase a = ""%string -> a = ""%string.
Proof. destruct a; [reflexivity | discriminate]. Qed.

End CaseConversion.

(** ** Variant lookup *)

Section Lookup.


(** What the callback computes for an option value is the case-converted
    label: the truthiness test only short-cuts the empty string. *)
Lemma guarded_conversion (convert : string -> string) (o : option string) :
  convert ""%string = ""%string ->
  (if truthy o then convert (default ""%string o) else ""%string)
  = convert (label o).
Proof.
  intros Hempty.
  destruct o as [t|]; simpl; [|now rewrite Hempty].
  destruct (String.eqb_spec t ""); simpl; [subst; now rewrite Hempty | reflexivity].
Qed.

Lemma matchesSelection_unfold (color size : string) (v : Variant.t) :
  matchesSelection color size v
  = String.eqb (toLowerCase (label (Variant.option1 v))) (toLowerCase color)
    && String.eqb (toUpperCase (label (Variant.option2 v))) size.
Proof.
  unfold matchesSelection.
  now rewrite (guarded_conversion toLowerCase), (guarded_conversion toUpperCase).
Qed.


Lemma matchesSelection_fillMissing (color size : string) (v : Variant.t) :
  matchesSelection color size (fillMissing v) = matchesSelection color size v.
Proof. now rewrite !matchesSelection_unfold. Qed.

Lemma matchesSelection_missing (color size : string) (v : Variant.t) :
  color <> ""%string -> size <> ""%string ->
  Variant.option1 v = None \/ Variant.option2 v = None ->
  matchesSelection color size v = false.
Proof.
  intros Hc Hs Hmissing.
  rewrite matchesSelection_unfold.
  apply andb_false_iff.
  destruct Hmissing as [-> | ->].
  - left. change (toLowerCase (label None)) with ""%string.
    apply String.eqb_neq. intros H. symmetry in H.
    now apply toLowerCase_empty in H.
  - right. change (toUpperCase (label None)) with ""%string.
    apply String.eqb_neq. congruence.
Qed.

Lemma find_map_fillMissing (color size : string) (l : list Variant.t) :
  find (matchesSelection color size) (map fillMissing l)
  = option_map fillMissing (find (matchesSelection color size) l).
Proof.
  induction l as [|v l IH]; simpl; [reflexivity|].
  rewrite matchesSelection_fillMissing.
  now destruct (matchesSelection color size v).
Qed.

End Lookup.



(** C10.  The lookup over any variant list returns without throwing; a
    missing option value is read as the empty string, so the lookup decides
    as it would with the empty strings written out; and for a selection
    whose colour and size are both non-empty a variant that lacks either
    option value does not match and is never the result. *)
Theorem findMatchingVariant_total_missing_options
  (p : Product.t) (color size : string) :
  (exists r, findMatchingVariant (Some p) color size = Normal r)
  /\ (forall v, matchesSelection color size v
                = matchesSelection color size (fillMissing v))
  /\ find (matchesSelection color size) (map fillMissing (Product.variants p))
     = option_map fillMissing
         (find (matchesSelection color size) (Product.variants p))
  /\ (color <> ""%string -> size <> ""%string ->
      forall v, Variant.option1 v = None \/ Variant.option2 v = None ->
        matchesSelection color size v = false
        /\ findMatchingVariant (Some p) color size <> Normal (Some v)).
Proof.
  split; [eexists; reflexivity|].
  split; [intros v; symmetry; apply matchesSelection_fillMissing|].
  split; [apply find_map_fillMissing|].
  intros Hc Hs v Hmissing.
  pose proof (matchesSelection_missing color size v Hc Hs Hmissing) as Hno.
  split; [exact Hno|].
  simpl. intros Hfound. injection Hfound as Hfound.
  apply find_some in Hfound as [_ Hyes]. congruence.
Qed.

Lemma findMatchingVariant_total_missing_options_witness :
  let v := Variant.mk 7 None (Some "M"%string) in
  let p := Product.mk "tee" [v; Variant.mk 8 (Some "Black"%string) (Some "M"%string)] in
  matchesSelection "black" "M" v = false
  /\ findMatchingVariant (Some p) "black" "M" <> Normal (Some v).
Proof.
  cbv zeta.
  apply (findMatchingVariant_total_missing_options
           (Product.mk "tee" [Variant.mk 7 None (Some "M"%string);
                              Variant.mk 8 (Some "Black"%string) (Some "M"%string)])
           "black" "M").
  - discriminate.
  - discriminate.
  - left. reflexivity.
Defined.

(** ** The promise chain of one submission *)

Section Chains.

Lemma effectsFrom_app (n : nat) (l l' : list (Origin * Effect)) :
  effectsFrom n (l ++ l') = effectsFrom n l ++ effectsFrom n l'.
Proof.
  induction l as [|[o e] l IH]; simpl; [reflexivity|].
  destruct (isSubmission n o); simpl; now rewrite IH.
Qed.

Lemma effectsFrom_other (n m : nat) (e : Effect) :
  n <> m -> effectsFrom n [(Submission m, e)] = [].
Proof. intros H. simpl. now apply Nat.eqb_neq in H as ->. Qed.

Lemma effectsFrom_own (n : nat) (e : Effect) :
  effectsFrom n [(Submission n, e)] = [e].
Proof. simpl. now rewrite Nat.eqb_refl. Qed.

Lemma run_app (s : State) (evs evs' : list Event) :
  run s (evs ++ evs') = run (run s evs) evs'.
Proof. apply fold_left_app. Qed.

Lemma run_cons (s : State) (ev : Event) (evs : list Event) :
  run s (ev :: evs) = run (step s ev) evs.
Proof. reflexivity. Qed.

End Chains.

(** Unfolds the callbacks down to the record, then normalises what they
    did to the log and to the table of suspended chains. *)
Ltac unfold_callbacks :=
  unfold bundleCatch, onRejected, onFulfilled, autoAddSoftWinterJacket,
    finally, updateCartCount, addToCart, showNotification, effectsOf in *;
  cbn [log inflight submissions buttonDisabled selectedColor selectedSize
       currentProduct emit setInflight setButtonDisabled setCloseTimers
       setSubmissions setGlobals setModalActive setControls setPendingOpens] in *.

Ltac clean_log :=
  rewrite ?effectsFrom_app, ?effectsFrom_own, ?app_nil_r, <- ?app_assoc;
  repeat (rewrite effectsFrom_other by lia);
  rewrite ?app_nil_r.

Section Frame.

Lemma SameChains_others (s s' : State) (n : nat) :
  SameChains s s' ->
  inflight s' !! n = inflight s !! n /\ effectsOf n s' = effectsOf n s.
Proof.
  intros (_ & Hin & Hlog). unfold effectsOf. now rewrite Hin, Hlog.
Qed.

Lemma selectColor_SameChains (color : string) (s : State) :
  SameChains s (selectColor color s).
Proof.
  unfold selectColor, updateAddToCartButton; cbn.
  destruct (_ && _); repeat split.
Qed.

Lemma sizeChanged_SameChains (value : string) (s : State) :
  SameChains s (sizeChanged value s).
Proof.
  unfold sizeChanged, updateAddToCartButton; cbn.
  destruct (_ && _); repeat split.
Qed.

Lemma handleAddToCart_submissions (s : State) :
  submissions (handleAddToCart s) = S (submissions s).
Proof.
  unfold handleAddToCart.
  cbn [selectedColor selectedSize currentProduct setSubmissions].
  destruct (negb _ || negb _); [reflexivity|].
  now destruct (findMatchingVariant _ _ _) as [[v|]|e].
Qed.

Lemma step_submissions (s : State) (ev : Event) :
  submissions s <= submissions (step s ev).
Proof.
  destruct ev; simpl.
  - reflexivity.
  - unfold productFetched. destruct (pendingOpens s); [reflexivity|].
    now destruct (fetchProductDataResult o).
  - destruct (existsb _ _); [|reflexivity].
    now rewrite (proj1 (selectColor_SameChains color s)).
  - destruct (existsb _ _); [|reflexivity].
    now rewrite (proj1 (sizeChanged_SameChains value s)).
  - destruct (buttonDisabled s); [reflexivity|].
    rewrite handleAddToCart_submissions. lia.
  - reflexivity.
  - now destruct (modalActive s).
  - now destruct (closeTimers s).
  - unfold primaryAddSettled.
    destruct (inflight s !! n) as [[]|]; try reflexivity.
    destruct (addToCartResult o); [destruct (bundleTest _ _) as [[]|]|];
      reflexivity.
  - unfold jacketFetchSettled.
    destruct (inflight s !! n) as [[]|]; try reflexivity.
    destruct (jacketFetchResult o) as [jacket|];
      [destruct (Product.variants jacket)|]; reflexivity.
  - unfold bundleAddSettled.
    destruct (inflight s !! n) as [[]|]; try reflexivity.
    destruct (addToCartResult o); reflexivity.
Qed.

(** A step leaves alone every submission it neither starts nor settles a
    request of. *)
Lemma step_others (s : State) (ev : Event) (n : nat) :
  n < submissions s \/ submissions (step s ev) <= n ->
  settles ev <> Some n \/ inflight s !! n = None ->
  inflight (step s ev) !! n = inflight s !! n
  /\ effectsOf n (step s ev) = effectsOf n s.
Proof.
  intros Hn Hev.
  destruct ev; simpl in *.
  - unfold openProductPopup. unfold_callbacks.
    rewrite effectsFrom_app. simpl. now rewrite app_nil_r.
  - unfold productFetched. destruct (pendingOpens s) as [|k]; [auto|].
    destruct (fetchProductDataResult o).
    + auto.
    + unfold_callbacks. rewrite !effectsFrom_app. simpl. now rewrite !app_nil_r.
  - destruct (existsb _ _); [|auto].
    apply SameChains_others, selectColor_SameChains.
  - destruct (existsb _ _); [|auto].
    apply SameChains_others, sizeChanged_SameChains.
  - destruct (buttonDisabled s); [auto|].
    rewrite handleAddToCart_submissions in Hn.
    unfold handleAddToCart.
    cbn [selectedColor selectedSize currentProduct setSubmissions].
    destruct (negb _ || negb _).
    { unfold_callbacks. clean_log. auto. }
    destruct (findMatchingVariant _ _ _) as [[v|]|e]; unfold_callbacks; clean_log;
      rewrite ?lookup_insert_ne by lia; auto.
  - auto.
  - destruct (modalActive s); auto.
  - destruct (closeTimers s); auto.
  - unfold primaryAddSettled.
    destruct (inflight s !! n0) as [[]|] eqn:Hn0; auto.
    assert (Hne : n0 <> n) by (intros ->; destruct Hev; congruence).
    destruct (addToCartResult o); [destruct (bundleTest _ _) as [[]|]|];
      unfold_callbacks; clean_log;
      rewrite ?lookup_insert_ne, ?lookup_delete_ne by lia; auto.
  - unfold jacketFetchSettled.
    destruct (inflight s !! n0) as [[]|] eqn:Hn0; auto.
    assert (Hne : n0 <> n) by (intros ->; destruct Hev; congruence).
    destruct (jacketFetchResult o) as [jacket|];
      [destruct (Product.variants jacket)|];
      unfold_callbacks; clean_log;
      rewrite ?lookup_insert_ne, ?lookup_delete_ne by lia; auto.
  - unfold bundleAddSettled.
    destruct (inflight s !! n0) as [[]|] eqn:Hn0; auto.
    assert (Hne : n0 <> n) by (intros ->; destruct Hev; congruence).
    destruct (addToCartResult o);
      unfold_callbacks; clean_log;
      rewrite ?lookup_insert_ne, ?lookup_delete_ne by lia; auto.
Qed.

Lemma step_Chain (s : State) (ev : Event) n stage es :
  Chain n stage es s ->
  settles ev <> Some n \/ stage = None ->
  Chain n stage es (step s ev).
Proof.
  intros (Hlt & Hstage & Hes) Hev.
  destruct (step_others s ev n) as [Hin Hlog]; [auto | |].
  { destruct Hev as [Hev | ->]; auto. }
  pose proof (step_submissions s ev).
  unfold Chain. rewrite Hin, Hlog. repeat split; [lia | auto | auto].
Qed.

(** While nothing settles its requests a chain stays where it is. *)
Lemma run_quiet (evs : list Event) (s : State) n stage es :
  Chain n stage es s -> quiet n evs -> Chain n stage es (run s evs).
Proof.
  revert s.
  induction evs as [|ev evs IH]; intros s HC Hquiet; [exact HC|].
  inversion Hquiet as [|? ? Hev Hrest]; subst.
  rewrite run_cons. apply IH; [|exact Hrest].
  apply step_Chain; auto.
Qed.

(** A chain that has run to its end does nothing more, whatever happens. *)
Lemma run_finished (evs : list Event) (s : State) n es :
  Chain n None es s -> Chain n None es (run s evs).
Proof.
  revert s.
  induction evs as [|ev evs IH]; intros s HC; [exact HC|].
  rewrite run_cons. apply IH, step_Chain; auto.
Qed.

Lemma Fresh_initialState : Fresh initialState.
Proof. intros m _. split; reflexivity. Qed.

Lemma Fresh_step (s : State) (ev : Event) : Fresh s -> Fresh (step s ev).
Proof.
  intros HF m Hm.
  pose proof (step_submissions s ev) as Hmono.
  destruct (HF m) as [Hin Hlog]; [lia|].
  destruct (step_others s ev m) as [Hin' Hlog']; [auto | auto |].
  now rewrite Hin', Hlog'.
Qed.

Lemma Fresh_run (evs : list Event) (s : State) : Fresh s -> Fresh (run s evs).
Proof.
  revert s. induction evs as [|ev evs IH]; intros s HF; [exact HF|].
  rewrite run_cons. apply IH, Fresh_step, HF.
Qed.

Lemma Reachable_Fresh (s : State) : Reachable s -> Fresh s.
Proof. intros [evs ->]. apply Fresh_run, Fresh_initialState. Qed.

End Frame.

Section Phases.

Variable n : nat.
Variable s : State.
Variable es : list Effect.

(** [handleAddToCart] with a selection that resolves to [v]. *)
Lemma handleAddToCart_submits (v : Variant.t) :
  Fresh s -> Submits s v -> n = submissions s ->
  Chain n (Some AwaitPrimary) [CartAdd (Variant.id v) 1%Z] (handleAddToCart s).
Proof.
  intros HF [Hcomplete Hfound] ->.
  destruct (HF (submissions s)) as [_ Hlog]; [lia|].
  apply andb_true_iff in Hcomplete as [Hc Hs].
  unfold Chain, handleAddToCart.
  cbn [selectedColor selectedSize currentProduct setSubmissions].
  rewrite Hc, Hs. cbn [negb orb].
  unfold label in Hfound. rewrite Hfound.
  unfold_callbacks. clean_log. rewrite Hlog, lookup_insert_eq.
  repeat split. lia.
Qed.

Hypothesis primary : Chain n (Some AwaitPrimary) es s.

Lemma primary_rejected (o : FetchOutcome unit) (e : JsError) :
  addToCartResult o = Rejected e ->
  Chain n None
    (es ++ [ConsoleError "Add to cart error:" (message e);
            Notification ("A problem happened. Error: " +:+ message e) error])
    (step s (PrimaryAddSettled n o)).
Proof.
  destruct primary as (Hlt & Hstage & Hes). intros Ho.
  unfold Chain. simpl. unfold primaryAddSettled. rewrite Hstage, Ho.
  unfold_callbacks. clean_log. rewrite lookup_delete_eq, Hes. auto.
Qed.

Lemma primary_fulfilled_fault (o : FetchOutcome unit) (e : JsError) :
  addToCartResult o = Fulfilled tt ->
  bundleTest (selectedColor s) (selectedSize s) = Throw e ->
  Chain n None
    (es ++ [ConsoleError "Add to cart error:" (message e);
            Notification ("A problem happened. Error: " +:+ message e) error])
    (step s (PrimaryAddSettled n o)).
Proof.
  destruct primary as (Hlt & Hstage & Hes). intros Ho Htest.
  unfold Chain. simpl. unfold primaryAddSettled. rewrite Hstage, Ho, Htest.
  unfold_callbacks. clean_log. rewrite lookup_delete_eq, Hes. auto.
Qed.

Lemma primary_fulfilled_plain (o : FetchOutcome unit) :
  addToCartResult o = Fulfilled tt ->
  bundleTest (selectedColor s) (selectedSize s) = Normal false ->
  Chain n None
    (es ++ [Notification "Added to cart" success; CartFetch])
    (step s (PrimaryAddSettled n o)).
Proof.
  destruct primary as (Hlt & Hstage & Hes). intros Ho Htest.
  unfold Chain. simpl. unfold primaryAddSettled. rewrite Hstage, Ho, Htest.
  unfold_callbacks. clean_log. rewrite lookup_delete_eq, Hes. auto.
Qed.

Lemma primary_fulfilled_bundle (o : FetchOutcome unit) :
  addToCartResult o = Fulfilled tt ->
  bundleTest (selectedColor s) (selectedSize s) = Normal true ->
  Chain n (Some AwaitJacket)
    (es ++ [ConsoleLog "Special logic triggered: Adding Soft Winter Jacket";
            ProductFetch "dark-winter-jacket"])
    (step s (PrimaryAddSettled n o)).
Proof.
  destruct primary as (Hlt & Hstage & Hes). intros Ho Htest.
  unfold Chain. simpl. unfold primaryAddSettled. rewrite Hstage, Ho, Htest.
  unfold_callbacks. clean_log. rewrite lookup_insert_eq, Hes. auto.
Qed.

End Phases.

Section BundlePhases.

Variable n : nat.
Variable s : State.
Variable es : list Effect.

Lemma jacket_rejected (o : FetchOutcome Product.t) (e : JsError) :
  Chain n (Some AwaitJacket) es s ->
  jacketFetchResult o = Rejected e ->
  Chain n None (es ++ swallowed e) (step s (JacketFetchSettled n o)).
Proof.
  intros (Hlt & Hstage & Hes) Ho.
  unfold Chain, swallowed. simpl. unfold jacketFetchSettled. rewrite Hstage, Ho.
  unfold_callbacks. clean_log. rewrite lookup_delete_eq, Hes. auto.
Qed.

Lemma jacket_without_variant (o : FetchOutcome Product.t) (jacket : Product.t) :
  Chain n (Some AwaitJacket) es s ->
  jacketFetchResult o = Fulfilled jacket ->
  Product.variants jacket = [] ->
  Chain n None (es ++ swallowed (TypeError (cannotRead "undefined" "id")))
    (step s (JacketFetchSettled n o)).
Proof.
  intros (Hlt & Hstage & Hes) Ho Hnone.
  unfold Chain, swallowed. simpl. unfold jacketFetchSettled.
  rewrite Hstage, Ho, Hnone.
  unfold_callbacks. clean_log. rewrite lookup_delete_eq, Hes. auto.
Qed.

Lemma jacket_first_variant (o : FetchOutcome Product.t) (jacket : Product.t)
  (first : Variant.t) (others : list Variant.t) :
  Chain n (Some AwaitJacket) es s ->
  jacketFetchResult o = Fulfilled jacket ->
  Product.variants jacket = first :: others ->
  Chain n (Some AwaitBundleAdd) (es ++ [CartAdd (Variant.id first) 1%Z])
    (step s (JacketFetchSettled n o)).
Proof.
  intros (Hlt & Hstage & Hes) Ho Hfirst.
  unfold Chain. simpl. unfold jacketFetchSettled. rewrite Hstage, Ho, Hfirst.
  unfold_callbacks. clean_log. rewrite lookup_insert_eq, Hes. auto.
Qed.

Lemma bundle_add_rejected (o : FetchOutcome unit) (e : JsError) :
  Chain n (Some AwaitBundleAdd) es s ->
  addToCartResult o = Rejected e ->
  Chain n None (es ++ swallowed e) (step s (BundleAddSettled n o)).
Proof.
  intros (Hlt & Hstage & Hes) Ho.
  unfold Chain, swallowed. simpl. unfold bundleAddSettled. rewrite Hstage, Ho.
  unfold_callbacks. clean_log. rewrite lookup_delete_eq, Hes. auto.
Qed.

End BundlePhases.

(** ** A submission from the click to the end of its chain *)

Section Submission.

Variable s : State.
Variable v : Variant.t.
Hypothesis reachable : Reachable s.
Hypothesis submits : Submits s v.

Variable mid : list Event.
Hypothesis mid_quiet : quiet (submissions s) mid.

Lemma submission_awaits_primary :
  Chain (submissions s) (Some AwaitPrimary) [CartAdd (Variant.id v) 1%Z]
    (run (handleAddToCart s) mid).
Proof.
  apply run_quiet; [|exact mid_quiet].
  apply handleAddToCart_submits; auto using Reachable_Fresh.
Qed.

Lemma submission_primary_rejected (o : FetchOutcome unit) (e : JsError)
  (post : list Event) :
  addToCartResult o = Rejected e ->
  Chain (submissions s) None
    [CartAdd (Variant.id v) 1%Z;
     ConsoleError "Add to cart error:" (message e);
     Notification ("A problem happened. Error: " +:+ message e) error]
    (run (handleAddToCart s) (mid ++ PrimaryAddSettled (submissions s) o :: post)).
Proof.
  intros Ho.
  rewrite run_app, run_cons.
  apply run_finished.
  apply (primary_rejected _ _ _ submission_awaits_primary o e Ho).
Qed.

Lemma submission_awaits_jacket (o : FetchOutcome unit) :
  addToCartResult o = Fulfilled tt ->
  bundleTest (selectedColor (run (handleAddToCart s) mid))
             (selectedSize (run (handleAddToCart s) mid)) = Normal true ->
  Chain (submissions s) (Some AwaitJacket) (bundleStarted v)
    (run (handleAddToCart s) (mid ++ [PrimaryAddSettled (submissions s) o])).
Proof.
  intros Ho Htest.
  rewrite run_app.
  apply (primary_fulfilled_bundle _ _ _ submission_awaits_primary o Ho Htest).
Qed.

End Submission.

Lemma bundle_failure_swallowed (n : nat) (s : State) (es : list Effect)
  (tail : list Event) (attempted : list Effect) (e : JsError) :
  Chain n (Some AwaitJacket) es s ->
  BundleFails n tail attempted e ->
  Chain n None (es ++ attempted ++ swallowed e) (run s tail).
Proof.
  intros HC Hfails.
  destruct Hfails as [mid o e Hq Ho | mid o jacket Hq Ho Hnone
                     | mid o jacket first others mid' o' e Hq Ho Hfirst Hq' Ho'].
  - rewrite run_app. apply jacket_rejected; [|exact Ho].
    now apply run_quiet.
  - rewrite run_app. eapply jacket_without_variant; [|exact Ho|exact Hnone].
    now apply run_quiet.
  - rewrite !run_app, app_assoc.
    apply bundle_add_rejected; [|exact Ho'].
    apply run_quiet; [|exact Hq'].
    eapply jacket_first_variant; [|exact Ho|exact Hfirst].
    now apply run_quiet.
Qed.

Lemma BundleFails_attempted (n : nat) (tail : list Event)
  (attempted : list Effect) (e : JsError) :
  BundleFails n tail attempted e ->
  attempted = [] \/ exists variantId, attempted = [CartAdd variantId 1%Z].
Proof. intros []; eauto. Qed.

Lemma submission_bundle_fails (s : State) (v : Variant.t)
  (mid tail post : list Event) (o : FetchOutcome unit)
  (attempted : list Effect) (e : JsError) :
  Reachable s -> Submits s v -> quiet (submissions s) mid ->
  addToCartResult o = Fulfilled tt ->
  bundleTest (selectedColor (run (handleAddToCart s) mid))
             (selectedSize (run (handleAddToCart s) mid)) = Normal true ->
  BundleFails (submissions s) tail attempted e ->
  Chain (submissions s) None (bundleStarted v ++ attempted ++ swallowed e)
    (run (handleAddToCart s)
       (mid ++ PrimaryAddSettled (submissions s) o :: tail ++ post)).
Proof.
  intros Hreach Hsub Hq Ho Htest Hfails.
  replace (mid ++ PrimaryAddSettled (submissions s) o :: tail ++ post)
    with ((mid ++ [PrimaryAddSettled (submissions s) o]) ++ tail ++ post)
    by now rewrite <- app_assoc.
  rewrite run_app, run_app.
  apply run_finished.
  eapply bundle_failure_swallowed; [|exact Hfails].
  now apply submission_awaits_jacket.
Qed.

(** C2.  When the primary add of a submission succeeds, the bundle rule
    triggers and the bundle step then fails (the jacket fetch is rejected,
    the jacket has no variant, or the second add is rejected), the chain
    ends with the success notification and the cart-count refresh; the
    failure is only written to the console, no error notification is ever
    shown for the submission, and the only cart requests it makes are
    additions: the primary one, and the jacket one if it got that far. *)
Theorem bundle_failure_reported_as_success
  (s : State) (v : Variant.t) (mid tail post : list Event)
  (o : FetchOutcome unit) (attempted : list Effect) (e : JsError) :
  Reachable s -> Submits s v -> quiet (submissions s) mid ->
  addToCartResult o = Fulfilled tt ->
  bundleTest (selectedColor (run (handleAddToCart s) mid))
             (selectedSize (run (handleAddToCart s) mid)) = Normal true ->
  BundleFails (submissions s) tail attempted e ->
  Chain (submissions s) None
    ([CartAdd (Variant.id v) 1%Z;
      ConsoleLog "Special logic triggered: Adding Soft Winter Jacket";
      ProductFetch "dark-winter-jacket"]
     ++ attempted
     ++ [ConsoleError "Failed to auto-add Soft Winter Jacket:" (message e);
         Notification "Added to cart" success; CartFetch])
    (run (handleAddToCart s)
       (mid ++ PrimaryAddSettled (submissions s) o :: tail ++ post))
  /\ (attempted = [] \/ exists variantId, attempted = [CartAdd variantId 1%Z])
  /\ existsb isErrorNotification
       (effectsOf (submissions s)
          (run (handleAddToCart s)
             (mid ++ PrimaryAddSettled (submissions s) o :: tail ++ post)))
     = false.
Proof.
  intros Hreach Hsub Hq Ho Htest Hfails.
  pose proof (submission_bundle_fails s v mid tail post o attempted e
                Hreach Hsub Hq Ho Htest Hfails) as HC.
  pose proof (BundleFails_attempted _ _ _ _ Hfails) as Hatt.
  split; [exact HC|]. split; [exact Hatt|].
  destruct HC as (_ & _ & ->).
  destruct Hatt as [-> | [j ->]]; reflexivity.
Qed.

(** C9.  When the bundle rule triggers and the jacket loads with an empty
    variant list, reading the first variant's id throws; the throw is
    caught by the [.catch] of the bundle step (its console line is the one
    written) and the chain ends with the success notification. *)
Theorem empty_jacket_fault_caught_in_bundle_step
  (s : State) (v : Variant.t) (mid mid' post : list Event)
  (o : FetchOutcome unit) (o' : FetchOutcome Product.t) (jacket : Product.t) :
  Reachable s -> Submits s v -> quiet (submissions s) mid ->
  addToCartResult o = Fulfilled tt ->
  bundleTest (selectedColor (run (handleAddToCart s) mid))
             (selectedSize (run (handleAddToCart s) mid)) = Normal true ->
  quiet (submissions s) mid' ->
  jacketFetchResult o' = Fulfilled jacket ->
  Product.variants jacket = [] ->
  Chain (submissions s) None
    [CartAdd (Variant.id v) 1%Z;
     ConsoleLog "Special logic triggered: Adding Soft Winter Jacket";
     ProductFetch "dark-winter-jacket";
     ConsoleError "Failed to auto-add Soft Winter Jacket:"
       (cannotRead "undefined" "id");
     Notification "Added to cart" success;
     CartFetch]
    (run (handleAddToCart s)
       (mid ++ PrimaryAddSettled (submissions s) o
            :: (mid' ++ [JacketFetchSettled (submissions s) o']) ++ post)).
Proof.
  intros Hreach Hsub Hq Ho Htest Hq' Ho' Hnone.
  apply (submission_bundle_fails s v mid _ post o []
           (TypeError (cannotRead "undefined" "id"))); auto.
  now apply JacketHasNoVariant with (jacket := jacket).
Qed.

(** C3.  When the primary add of a submission is rejected, the chain ends
    with the error notification; over the whole life of the submission its
    effects are the one cart addition, the console line and that
    notification, so neither the jacket fetch nor a second addition is
    ever requested. *)
Theorem primary_failure_skips_bundle
  (s : State) (v : Variant.t) (mid post : list Event)
  (o : FetchOutcome unit) (e : JsError) :
  Reachable s -> Submits s v -> quiet (submissions s) mid ->
  addToCartResult o = Rejected e ->
  Chain (submissions s) None
    [CartAdd (Variant.id v) 1%Z;
     ConsoleError "Add to cart error:" (message e);
     Notification ("A problem happened. Error: " +:+ message e) error]
    (run (handleAddToCart s) (mid ++ PrimaryAddSettled (submissions s) o :: post)).
Proof.
  intros Hreach Hsub Hq Ho.
  now apply submission_primary_rejected.
Qed.

(** ** Submissions that are turned down before any request *)

Lemma handleAddToCart_turned_down (s : State) (text : string) :
  (truthy (selectedColor s) && truthy (selectedSize s) = false
   /\ text = "Please select both color and size"%string)
  \/ (truthy (selectedColor s) && truthy (selectedSize s) = true
      /\ findMatchingVariant (currentProduct s)
           (label (selectedColor s)) (label (selectedSize s)) = Normal None
      /\ text = "This combination is not available"%string) ->
  log (handleAddToCart s)
  = log s ++ [(Submission (submissions s), Notification text error)]
  /\ inflight (handleAddToCart s) = inflight s.
Proof.
  unfold handleAddToCart.
  cbn [selectedColor selectedSize currentProduct setSubmissions].
  intros [[Hincomplete ->] | (Hcomplete & Hnone & ->)].
  - rewrite <- negb_andb, Hincomplete. cbn [negb]. split; reflexivity.
  - rewrite <- negb_andb, Hcomplete. cbn [negb].
    unfold label in Hnone. rewrite Hnone. split; reflexivity.
Qed.

Lemma turned_down_forever (s : State) (text : string) (post : list Event) :
  Fresh s ->
  log (handleAddToCart s)
  = log s ++ [(Submission (submissions s), Notification text error)] ->
  inflight (handleAddToCart s) = inflight s ->
  Chain (submissions s) None [Notification text error]
    (run (handleAddToCart s) post).
Proof.
  intros HF Hlog Hin.
  destruct (HF (submissions s)) as [Hnone Hempty]; [lia|].
  apply run_finished.
  unfold Chain, effectsOf in *.
  rewrite handleAddToCart_submissions, Hin, Hlog.
  clean_log. rewrite Hempty. repeat split; [lia | exact Hnone].
Qed.

(** C5.  A submission made while the colour or the size is missing only
    shows the notification asking for both; the handler adds nothing else
    to the log and starts no promise chain, so over its whole life the
    submission makes no request at all. *)
Theorem incomplete_selection_makes_no_request (s : State) (post : list Event) :
  Reachable s ->
  truthy (selectedColor s) && truthy (selectedSize s) = false ->
  log (handleAddToCart s)
  = log s ++ [(Submission (submissions s),
               Notification "Please select both color and size" error)]
  /\ inflight (handleAddToCart s) = inflight s
  /\ Chain (submissions s) None
       [Notification "Please select both color and size" error]
       (run (handleAddToCart s) post).
Proof.
  intros Hreach Hincomplete.
  destruct (handleAddToCart_turned_down s "Please select both color and size")
    as [Hlog Hin]; [left; auto|].
  split; [exact Hlog | split; [exact Hin|]].
  apply turned_down_forever; auto using Reachable_Fresh.
Qed.

(** C6.  A submission whose selection is complete but resolves to no
    variant of the current product only shows the notification that the
    combination is not available; the handler returns before its call of
    [addToCart], starts no promise chain, and over its whole life the
    submission makes no request at all. *)
Theorem unmatched_selection_makes_no_request (s : State) (post : list Event) :
  Reachable s ->
  truthy (selectedColor s) && truthy (selectedSize s) = true ->
  findMatchingVariant (currentProduct s)
    (label (selectedColor s)) (label (selectedSize s)) = Normal None ->
  log (handleAddToCart s)
  = log s ++ [(Submission (submissions s),
               Notification "This combination is not available" error)]
  /\ inflight (handleAddToCart s) = inflight s
  /\ Chain (submissions s) None
       [Notification "This combination is not available" error]
       (run (handleAddToCart s) post).
Proof.
  intros Hreach Hcomplete Hnone.
  destruct (handleAddToCart_turned_down s "This combination is not available")
    as [Hlog Hin]; [right; auto|].
  split; [exact Hlog | split; [exact Hin|]].
  apply turned_down_forever; auto using Reachable_Fresh.
Qed.

(** ** The bundle rule *)




(** ** Witnesses on the sample session *)

Lemma bundle_failure_reported_as_success_witness :
  Chain 0 None
    [CartAdd 12 1%Z;
     ConsoleLog "Special logic triggered: Adding Soft Winter Jacket";
     ProductFetch "dark-winter-jacket";
     CartAdd 77 1%Z;
     ConsoleError "Failed to auto-add Soft Winter Jacket:" "Failed to add to cart";
     Notification "Added to cart" success;
     CartFetch]
    (run (handleAddToCart (run initialState blackMChosen))
       ([] ++ PrimaryAddSettled 0 (okResponse tt)
           :: ([] ++ [JacketFetchSettled 0
                        (okResponse
                           (Product.mk "dark-winter-jacket"
                              [Variant.mk 77 None None]))]
                  ++ [] ++ [BundleAddSettled 0 (Response false (Normal tt))])
           ++ [CloseTimerFires])).
Proof.
  apply (bundle_failure_reported_as_success
           (run initialState blackMChosen) blackM [] _ [CloseTimerFires]
           (okResponse tt) [CartAdd 77 1%Z] (Error "Failed to add to cart")).
  - exists blackMChosen. reflexivity.
  - split; reflexivity.
  - constructor.
  - reflexivity.
  - reflexivity.
  - apply (BundleAddFails 0 [] (okResponse (Product.mk "dark-winter-jacket"
                                               [Variant.mk 77 None None]))
             (Product.mk "dark-winter-jacket" [Variant.mk 77 None None])
             (Variant.mk 77 None None) [] [] (Response false (Normal tt))
             (Error "Failed to add to cart")).
    + constructor.
    + reflexivity.
    + reflexivity.
    + constructor.
    + reflexivity.
Defined.

Lemma empty_jacket_fault_caught_in_bundle_step_witness :
  Chain 0 None
    [CartAdd 12 1%Z;
     ConsoleLog "Special logic triggered: Adding Soft Winter Jacket";
     ProductFetch "dark-winter-jacket";
     ConsoleError "Failed to auto-add Soft Winter Jacket:"
       "Cannot read properties of undefined (reading 'id')";
     Notification "Added to cart" success;
     CartFetch]
    (run (handleAddToCart (run initialState blackMChosen))
       ([] ++ PrimaryAddSettled 0 (okResponse tt)
           :: ([] ++ [JacketFetchSettled 0
                        (okResponse (Product.mk "dark-winter-jacket" []))])
           ++ [])).
Proof.
  apply (empty_jacket_fault_caught_in_bundle_step
           (run initialState blackMChosen) blackM [] [] []
           (okResponse tt) (okResponse (Product.mk "dark-winter-jacket" []))
           (Product.mk "dark-winter-jacket" [])).
  - exists blackMChosen. reflexivity.
  - split; reflexivity.
  - constructor.
  - reflexivity.
  - reflexivity.
  - constructor.
  - reflexivity.
  - reflexivity.
Defined.

Lemma primary_failure_skips_bundle_witness :
  Chain 0 None
    [CartAdd 12 1%Z;
     ConsoleError "Add to cart error:" "Failed to add to cart";
     Notification "A problem happened. Error: Failed to add to cart" error]
    (run (handleAddToCart (run initialState blackMChosen))
       ([] ++ PrimaryAddSettled 0 (Response false (Normal tt))
           :: [JacketFetchSettled 0 (okResponse tee)])).
Proof.
  apply (primary_failure_skips_bundle
           (run initialState blackMChosen) blackM []
           [JacketFetchSettled 0 (okResponse tee)]
           (Response false (Normal tt)) (Error "Failed to add to cart")).
  - exists blackMChosen. reflexivity.
  - split; reflexivity.
  - constructor.
  - reflexivity.
Defined.

Lemma incomplete_selection_makes_no_request_witness :
  Chain 0 None [Notification "Please select both color and size" error]
    (run (handleAddToCart (run initialState (opened ++ [ClickColor "Black"])))
       [ChangeSize "M"; CloseTimerFires]).
Proof.
  apply (incomplete_selection_makes_no_request
           (run initialState (opened ++ [ClickColor "Black"]))
           [ChangeSize "M"; CloseTimerFires]).
  - exists (opened ++ [ClickColor "Black"]). reflexivity.
  - reflexivity.
Defined.

Lemma unmatched_selection_makes_no_request_witness :
  Chain 0 None [Notification "This combination is not available" error]
    (run (handleAddToCart
            (run initialState (opened ++ [ClickColor "White"; ChangeSize "S"])))
       [ClickClose]).
Proof.
  apply (unmatched_selection_makes_no_request
           (run initialState (opened ++ [ClickColor "White"; ChangeSize "S"]))
           [ClickClose]).
  - exists (opened ++ [ClickColor "White"; ChangeSize "S"]). reflexivity.
  - reflexivity.
  - reflexivity.
Defined.


(** ** Two defects of the script *)

(** While a submission is in flight the button is disabled, so a second
    click that follows at once is not delivered. *)
Lemma second_click_at_once_ignored (s : State) (v : Variant.t) :
  Submits s v -> step (handleAddToCart s) ClickAddToCart = handleAddToCart s.
Proof.
  intros [Hcomplete Hfound].
  apply andb_true_iff in Hcomplete as [Hc Hs].
  unfold handleAddToCart.
  cbn [selectedColor selectedSize currentProduct setSubmissions].
  rewrite Hc, Hs. cbn [negb orb].
  unfold label in Hfound. rewrite Hfound. reflexivity.
Qed.

(** C4 (fails on the code).  [selectColor] and the size listener call
    [updateAddToCartButton], which enables the button whenever the
    selection is complete, also while a submission is in flight.  Clicking
    the colour again between two clicks on the button therefore lets the
    second click through: both submissions are waiting for their primary
    add, and two cart additions have been requested. *)
Theorem reselect_in_flight_allows_second_add :
  let s := run initialState
             (blackMChosen ++ [ClickAddToCart; ClickColor "Black"; ClickAddToCart]) in
  buttonDisabled (run initialState (blackMChosen ++ [ClickAddToCart])) = true
  /\ inflight s !! 0 = Some AwaitPrimary
  /\ inflight s !! 1 = Some AwaitPrimary
  /\ cartAdds s = [CartAdd 12 1%Z; CartAdd 12 1%Z].
Proof. cbv zeta. repeat split; vm_compute; reflexivity. Qed.

(** C8 (fails on the code).  The first [.then] callback of
    [handleAddToCart] reads [selectedColor] when the primary add settles.
    Left alone, the sample submission goes on to the bundle step; if the
    overlay is closed while the primary add is in flight, [closePopup] has
    set the colour to [null], the callback throws, the bundle step is
    skipped and the submission, whose primary add succeeded, ends with the
    error notification. *)
Theorem close_in_flight_turns_success_into_error :
  let submitted := run initialState (blackMChosen ++ [ClickAddToCart]) in
  let settled := PrimaryAddSettled 0 (okResponse tt) in
  Chain 0 (Some AwaitJacket)
    [CartAdd 12 1%Z;
     ConsoleLog "Special logic triggered: Adding Soft Winter Jacket";
     ProductFetch "dark-winter-jacket"]
    (run submitted [settled])
  /\ Chain 0 None
       [CartAdd 12 1%Z;
        ConsoleError "Add to cart error:"
          "Cannot read properties of null (reading 'toLowerCase')";
        Notification
          "A problem happened. Error: Cannot read properties of null (reading 'toLowerCase')"
          error]
       (run submitted [PressEscape; settled]).
Proof.
  cbv zeta.
  split; (split; [vm_compute; lia | split; vm_compute; reflexivity]).
Qed.

(** * Further properties *)

(** ** Colour buttons *)

Section ColourButtons.

Lemma existsb_eqb_In (c : string) (l : list string) :
  existsb (String.eqb c) l = true <-> In c l.
Proof.
  rewrite existsb_exists. split.
  - intros (x & Hin & Heq). apply String.eqb_eq in Heq. now subst.
  - intros Hin. exists c. split; [exact Hin | apply String.eqb_refl].
Qed.

Lemma truthy_Some (c : string) : truthy (Some c) = true <-> c <> ""%string.
Proof.
  simpl. rewrite negb_true_iff. apply String.eqb_neq.
Qed.

Lemma renderColorVariants_fold (p : Product.t) :
  renderColorVariants p = fold_left addColor (Product.variants p) [].
Proof. reflexivity. Qed.

Lemma addColor_NoDup (colors : list string) (v : Variant.t) :
  List.NoDup colors -> List.NoDup (addColor colors v).
Proof.
  intros Hnodup. unfold addColor.
  destruct (Variant.option1 v) as [c|]; [|exact Hnodup].
  destruct (truthy (Some c) && negb (existsb (String.eqb c) colors)) eqn:Hadd;
    [|exact Hnodup].
  apply andb_true_iff in Hadd as [_ Hnew].
  apply negb_true_iff in Hnew.
  apply List.NoDup_app; [exact Hnodup | constructor; [intros [] | constructor] |].
  intros x Hx [<-|[]]. apply existsb_eqb_In in Hx. congruence.
Qed.

Lemma addColor_In (colors : list string) (v : Variant.t) (c : string) :
  In c (addColor colors v)
  <-> In c colors \/ (c <> ""%string /\ Variant.option1 v = Some c).
Proof.
  unfold addColor.
  destruct (Variant.option1 v) as [d|]; [|split; [auto | intros [H|[_ H]]; [auto | discriminate]]].
  destruct (truthy (Some d)) eqn:Htruthy; cbn [andb].
  - apply truthy_Some in Htruthy.
    destruct (existsb (String.eqb d) colors) eqn:Hold; cbn [negb].
    + apply existsb_eqb_In in Hold.
      split; [auto | intros [H|[_ H]]; [auto | congruence]].
    + rewrite in_app_iff. simpl. split.
      * intros [H|[<-|[]]]; auto.
      * intros [H|[_ H]]; [auto | right; left; congruence].
  - assert (Hempty : d = ""%string).
    { destruct (String.eqb_spec d ""); [auto | simpl in Htruthy].
      apply negb_false_iff, String.eqb_eq in Htruthy. exact Htruthy. }
    split; [auto | intros [H|[Hne H]]; [auto | congruence]].
Qed.

Lemma fold_addColor_NoDup (l : list Variant.t) (colors : list string) :
  List.NoDup colors -> List.NoDup (fold_left addColor l colors).
Proof.
  revert colors. induction l as [|v l IH]; intros colors H; simpl; [exact H|].
  apply IH, addColor_NoDup, H.
Qed.

Lemma fold_addColor_In (l : list Variant.t) (colors : list string) (c : string) :
  In c (fold_left addColor l colors)
  <-> In c colors
      \/ (c <> ""%string /\ exists v, In v l /\ Variant.option1 v = Some c).
Proof.
  revert colors. induction l as [|v l IH]; intros colors; simpl.
  - split; [auto | intros [H|(_ & v & [] & _)]; exact H].
  - rewrite IH, addColor_In. split.
    + intros [[H|[Hne Hv]]|(Hne & u & Hu & Hc)]; eauto 8.
    + intros [H|(Hne & u & [<-|Hu] & Hc)]; eauto 8.
Qed.

Lemma renderColorVariants_In (p : Product.t) (c : string) :
  In c (renderColorVariants p)
  <-> c <> ""%string
      /\ exists v, In v (Product.variants p) /\ Variant.option1 v = Some c.
Proof.
  rewrite renderColorVariants_fold, fold_addColor_In. simpl. tauto.
Qed.

End ColourButtons.

(** X1.  [renderColorVariants] renders one button per distinct colour: no
    colour appears twice, and a string is rendered exactly when it is
    non-empty and is the [option1] of some variant of the product.  Colours
    are told apart exactly, so spellings that differ in letter case get a
    button each. *)
Theorem renderColorVariants_distinct_colours (p : Product.t) :
  List.NoDup (renderColorVariants p)
  /\ forall c,
       In c (renderColorVariants p)
       <-> c <> ""%string
           /\ exists v, In v (Product.variants p) /\ Variant.option1 v = Some c.
Proof.
  split.
  - rewrite renderColorVariants_fold. apply fold_addColor_NoDup. constructor.
  - intros c. apply renderColorVariants_In.
Qed.

(** ** More on the lookup *)

Section LookupCase.

Lemma upperChar_not_lower (c : ascii) : isLower (upperChar c) = false.
Proof.
  unfold upperChar.
  destruct (isLower c) eqn:Hlow; [|exact Hlow].
  unfold isLower in *.
  apply andb_true_iff in Hlow as [Hlo Hhi].
  apply Nat.leb_le in Hlo, Hhi.
  rewrite nat_ascii_embedding by lia.
  apply andb_false_iff. left. apply Nat.leb_gt. lia.
Qed.

Lemma toUpperCase_no_lower (s : string) : hasLowerCaseLetter (toUpperCase s) = false.
Proof.
  induction s as [|c s IH]; simpl; [reflexivity|].
  now rewrite upperChar_not_lower, IH.
Qed.

Lemma matchesSelection_same_colour (c c' size : string) (v : Variant.t) :
  equalIgnoringCase c c' = true ->
  matchesSelection c size v = matchesSelection c' size v.
Proof.
  intros H. apply equalIgnoringCase_iff in H.
  rewrite !matchesSelection_unfold. now rewrite H.
Qed.

End LookupCase.

(** X2.  The lookup does not depend on the letter case of the selected
    colour: two selections whose colours are equal up to case and whose
    sizes are the same resolve to the same variant. *)
Theorem findMatchingVariant_colour_case
  (product : option Product.t) (c c' size : string) :
  equalIgnoringCase c c' = true ->
  findMatchingVariant product c size = findMatchingVariant product c' size.
Proof.
  intros H. destruct product as [p|]; [|reflexivity].
  simpl. f_equal.
  induction (Product.variants p) as [|v l IH]; simpl; [reflexivity|].
  now rewrite (matchesSelection_same_colour c c' size v H), IH.
Qed.

Lemma findMatchingVariant_colour_case_witness :
  findMatchingVariant (Some tee) "BLACK" "M"
  = findMatchingVariant (Some tee) "black" "M".
Proof.
  apply (findMatchingVariant_colour_case (Some tee) "BLACK" "black" "M").
  reflexivity.
Defined.

(** X3.  The selected size is compared as it is with the upper-cased size
    of each variant, so a selected size that contains a lower-case letter
    resolves to no variant, whatever the product lists. *)
Theorem findMatchingVariant_lower_case_size
  (p : Product.t) (color size : string) :
  hasLowerCaseLetter size = true ->
  findMatchingVariant (Some p) color size = Normal None.
Proof.
  intros Hlow. simpl. f_equal.
  induction (Product.variants p) as [|v l IH]; simpl; [reflexivity|].
  rewrite matchesSelection_unfold.
  destruct (String.eqb_spec (toUpperCase (label (Variant.option2 v))) size)
    as [Heq|Hne].
  - rewrite <- Heq, toUpperCase_no_lower in Hlow. discriminate.
  - rewrite andb_false_r. exact IH.
Qed.

Lemma findMatchingVariant_lower_case_size_witness :
  findMatchingVariant
    (Some (Product.mk "tee" [Variant.mk 1 (Some "black"%string) (Some "m"%string)]))
    "black" "m"
  = Normal None.
Proof.
  apply (findMatchingVariant_lower_case_size
           (Product.mk "tee" [Variant.mk 1 (Some "black"%string) (Some "m"%string)])
           "black" "m").
  reflexivity.
Defined.

(** ** The history of every submission *)

Section Histories.

Lemma bundle_add_fulfilled (n : nat) (s : State) (es : list Effect)
  (o : FetchOutcome unit) :
  Chain n (Some AwaitBundleAdd) es s ->
  addToCartResult o = Fulfilled tt ->
  Chain n None (es ++ [Notification "Added to cart" success; CartFetch])
    (step s (BundleAddSettled n o)).
Proof.
  intros (Hlt & Hstage & Hes) Ho.
  unfold Chain. simpl. unfold bundleAddSettled. rewrite Hstage, Ho.
  unfold_callbacks. clean_log. rewrite lookup_delete_eq, Hes. auto.
Qed.

Lemma Chain_here (n : nat) (s : State) :
  n < submissions s -> Chain n (inflight s !! n) (effectsOf n s) s.
Proof. intros H. repeat split. exact H. Qed.

Lemma Chain_History (n : nat) (stage : option Stage) (es : list Effect) (s : State) :
  Chain n stage es s -> History stage es ->
  History (inflight s !! n) (effectsOf n s).
Proof. intros (_ & -> & ->) H. exact H. Qed.

Lemma handleAddToCart_History (s : State) :
  Fresh s ->
  History (inflight (handleAddToCart s) !! submissions s)
    (effectsOf (submissions s) (handleAddToCart s)).
Proof.
  intros HF. destruct (HF (submissions s)) as [Hnone Hempty]; [lia|].
  unfold effectsOf in Hempty.
  unfold handleAddToCart.
  cbn [selectedColor selectedSize currentProduct setSubmissions].
  destruct (negb _ || negb _).
  { unfold_callbacks. clean_log. rewrite Hnone, Hempty.
    apply TurnedDown. now left. }
  destruct (findMatchingVariant _ _ _) as [[v|]|e]; unfold_callbacks; clean_log;
    rewrite Hempty.
  - rewrite lookup_insert_eq. now exists (Variant.id v).
  - rewrite Hnone. apply TurnedDown. now right.
  - rewrite Hnone. apply HandlerThrew.
Qed.

Lemma primary_settlement_History (n : nat) (s : State) (o : FetchOutcome unit) :
  n < submissions s ->
  History (inflight s !! n) (effectsOf n s) ->
  History (inflight (step s (PrimaryAddSettled n o)) !! n)
    (effectsOf n (step s (PrimaryAddSettled n o))).
Proof.
  intros Hlt HH.
  destruct (inflight s !! n) as [[]|] eqn:Hstage;
    try (simpl; unfold primaryAddSettled; rewrite Hstage; now rewrite Hstage).
  destruct HH as [variantId Hes].
  assert (HC : Chain n (Some AwaitPrimary) [CartAdd variantId 1%Z] s)
    by (repeat split; auto).
  destruct (addToCartResult o) as [[]|e] eqn:Ho.
  - destruct (bundleTest (selectedColor s) (selectedSize s)) as [[]|e] eqn:Htest.
    + eapply Chain_History;
        [apply (primary_fulfilled_bundle _ _ _ HC o Ho Htest)|].
      now exists variantId.
    + eapply Chain_History;
        [apply (primary_fulfilled_plain _ _ _ HC o Ho Htest)|].
      apply PlainSuccess.
    + eapply Chain_History;
        [apply (primary_fulfilled_fault _ _ _ HC o e Ho Htest)|].
      apply PrimaryFailed.
  - eapply Chain_History; [apply (primary_rejected _ _ _ HC o e Ho)|].
    apply PrimaryFailed.
Qed.

Lemma jacket_settlement_History (n : nat) (s : State) (o : FetchOutcome Product.t) :
  n < submissions s ->
  History (inflight s !! n) (effectsOf n s) ->
  History (inflight (step s (JacketFetchSettled n o)) !! n)
    (effectsOf n (step s (JacketFetchSettled n o))).
Proof.
  intros Hlt HH.
  destruct (inflight s !! n) as [[]|] eqn:Hstage;
    try (simpl; unfold jacketFetchSettled; rewrite Hstage; now rewrite Hstage).
  destruct HH as [variantId Hes].
  assert (HC : Chain n (Some AwaitJacket) (bundleStarted (Variant.mk variantId None None)) s)
    by (repeat split; auto).
  destruct (jacketFetchResult o) as [jacket|e] eqn:Ho.
  - destruct (Product.variants jacket) as [|first others] eqn:Hvariants.
    + eapply Chain_History;
        [apply (jacket_without_variant _ _ _ o jacket HC Ho Hvariants)|].
      apply BundleFailedBeforeAdd.
    + eapply Chain_History;
        [apply (jacket_first_variant _ _ _ o jacket first others HC Ho Hvariants)|].
      now exists variantId, (Variant.id first).
  - eapply Chain_History; [apply (jacket_rejected _ _ _ o e HC Ho)|].
    apply BundleFailedBeforeAdd.
Qed.

Lemma bundle_settlement_History (n : nat) (s : State) (o : FetchOutcome unit) :
  n < submissions s ->
  History (inflight s !! n) (effectsOf n s) ->
  History (inflight (step s (BundleAddSettled n o)) !! n)
    (effectsOf n (step s (BundleAddSettled n o))).
Proof.
  intros Hlt HH.
  destruct (inflight s !! n) as [[]|] eqn:Hstage;
    try (simpl; unfold bundleAddSettled; rewrite Hstage; now rewrite Hstage).
  destruct HH as (variantId & jacketId & Hes).
  assert (HC : Chain n (Some AwaitBundleAdd)
                 (bundleStarted (Variant.mk variantId None None)
                  ++ [CartAdd jacketId 1%Z]) s)
    by (repeat split; auto).
  destruct (addToCartResult o) as [[]|e] eqn:Ho.
  - eapply Chain_History; [apply (bundle_add_fulfilled _ _ _ o HC Ho)|].
    apply BundleSuccess.
  - eapply Chain_History; [apply (bundle_add_rejected _ _ _ o e HC Ho)|].
    apply BundleAddFailed.
Qed.

Lemma step_new_submission (s : State) (ev : Event) :
  submissions (step s ev) = submissions s
  \/ (step s ev = handleAddToCart s
      /\ submissions (step s ev) = S (submissions s)).
Proof.
  destruct ev; simpl; auto.
  - unfold productFetched. destruct (pendingOpens s); [auto|].
    destruct (fetchProductDataResult o); auto.
  - destruct (existsb _ _); [|auto].
    left. apply (selectColor_SameChains color s).
  - destruct (existsb _ _); [|auto].
    left. apply (sizeChanged_SameChains value s).
  - destruct (buttonDisabled s); [auto|].
    right. split; [reflexivity | apply handleAddToCart_submissions].
  - destruct (modalActive s); auto.
  - destruct (closeTimers s); auto.
  - left. unfold primaryAddSettled.
    destruct (inflight s !! n) as [[]|]; try reflexivity.
    destruct (addToCartResult o); [destruct (bundleTest _ _) as [[]|]|];
      reflexivity.
  - left. unfold jacketFetchSettled.
    destruct (inflight s !! n) as [[]|]; try reflexivity.
    destruct (jacketFetchResult o) as [jacket|];
      [destruct (Product.variants jacket)|]; reflexivity.
  - left. unfold bundleAddSettled.
    destruct (inflight s !! n) as [[]|]; try reflexivity.
    destruct (addToCartResult o); reflexivity.
Qed.

Lemma Orderly_step (s : State) (ev : Event) : Orderly s -> Orderly (step s ev).
Proof.
  intros [HF HH]. split; [now apply Fresh_step|].
  intros n Hn.
  destruct (Nat.lt_ge_cases n (submissions s)) as [Hold|Hnew].
  - specialize (HH n Hold).
    destruct (decide (settles ev = Some n)) as [Hsettles|Hother].
    + destruct ev; simpl in Hsettles; try discriminate;
        injection Hsettles as ->.
      * now apply primary_settlement_History.
      * now apply jacket_settlement_History.
      * now apply bundle_settlement_History.
    + eapply Chain_History; [|exact HH].
      apply step_Chain; [now apply Chain_here | now left].
  - destruct (step_new_submission s ev) as [Hsame|[Hclick Hsucc]]; [lia|].
    assert (n = submissions s) as -> by lia.
    rewrite Hclick. now apply handleAddToCart_History.
Qed.

Lemma Orderly_initialState : Orderly initialState.
Proof. split; [apply Fresh_initialState | intros n Hn; inversion Hn]. Qed.

Lemma Reachable_Orderly (s : State) : Reachable s -> Orderly s.
Proof.
  intros [evs ->].
  assert (H : forall s0, Orderly s0 -> Orderly (run s0 evs)).
  { induction evs as [|ev evs IH]; intros s0 H0; [exact H0|].
    rewrite run_cons. apply IH, Orderly_step, H0. }
  apply H, Orderly_initialState.
Qed.

Lemma Finished_counts (es : list Effect) :
  Finished es ->
  length (List.filter isNotification es) <= 1
  /\ length (List.filter isCartAdd es) <= 2
  /\ (existsb isErrorNotification es = true ->
      ~ In (Notification "Added to cart" success) es)
  /\ (In (Notification "Added to cart" success) es ->
      exists variantId rest, es = CartAdd variantId 1%Z :: rest).
Proof.
  intros Hfinished.
  destruct Hfinished; simpl; repeat split; try lia; try discriminate;
    try (intros _ Hmem;
         repeat (destruct Hmem as [Hmem|Hmem]; try discriminate Hmem);
         contradiction);
    try (intros Hmem;
         repeat (destruct Hmem as [Hmem|Hmem]; try discriminate Hmem);
         contradiction);
    intros _; eauto.
Qed.

End Histories.

Lemma History_counts (stage : option Stage) (es : list Effect) :
  History stage es ->
  length (List.filter isNotification es) <= 1
  /\ length (List.filter isCartAdd es) <= 2
  /\ (existsb isErrorNotification es = true ->
      ~ In (Notification "Added to cart" success) es)
  /\ (In (Notification "Added to cart" success) es ->
      exists variantId rest, es = CartAdd variantId 1%Z :: rest).
Proof.
  destruct stage as [[]|]; [| | |apply Finished_counts].
  - intros [v ->]. simpl. repeat split; try lia; try discriminate.
    all: intros Hmem; repeat (destruct Hmem as [Hmem|Hmem]; try discriminate Hmem);
      contradiction.
  - intros [v ->]. simpl. repeat split; try lia; try discriminate.
    all: intros Hmem; repeat (destruct Hmem as [Hmem|Hmem]; try discriminate Hmem);
      contradiction.
  - intros (v & j & ->). simpl. repeat split; try lia; try discriminate.
    all: intros Hmem; repeat (destruct Hmem as [Hmem|Hmem]; try discriminate Hmem);
      contradiction.
Qed.

Lemma History_quantities (stage : option Stage) (es : list Effect) :
  History stage es ->
  forall variantId quantity, In (CartAdd variantId quantity) es -> quantity = 1%Z.
Proof.
  intros HH variantId quantity Hmem.
  destruct stage as [[]|]; simpl in HH.
  - destruct HH as [v ->].
    repeat (destruct Hmem as [Hmem|Hmem]; try congruence). contradiction.
  - destruct HH as [v ->].
    repeat (destruct Hmem as [Hmem|Hmem]; try congruence). contradiction.
  - destruct HH as (v & j & ->).
    repeat (destruct Hmem as [Hmem|Hmem]; try congruence). contradiction.
  - destruct HH;
      repeat (destruct Hmem as [Hmem|Hmem]; try congruence); contradiction.
Qed.

(** Any identifier, handed out or not. *)
Lemma Reachable_History (s : State) (n : nat) :
  Reachable s ->
  effectsOf n s = [] \/ History (inflight s !! n) (effectsOf n s).
Proof.
  intros Hreach. destruct (Reachable_Orderly s Hreach) as [HF HH].
  destruct (Nat.lt_ge_cases n (submissions s)) as [Hold|Hnew].
  - right. now apply HH.
  - left. now apply HF.
Qed.



(** X5.  In every reachable state a submission has shown at most one
    notification; in particular a submission never shows both an error and
    "Added to cart".  "Added to cart" is only shown for a submission whose
    first effect was its cart addition. *)
Theorem submission_notified_at_most_once (s : State) (n : nat) :
  Reachable s ->
  length (List.filter isNotification (effectsOf n s)) <= 1
  /\ (existsb isErrorNotification (effectsOf n s) = true ->
      ~ In (Notification "Added to cart" success) (effectsOf n s))
  /\ (In (Notification "Added to cart" success) (effectsOf n s) ->
      exists variantId rest, effectsOf n s = CartAdd variantId 1%Z :: rest).
Proof.
  intros Hreach.
  destruct (Reachable_History s n Hreach) as [-> | HH].
  - simpl. repeat split; [lia | discriminate | intros []].
  - destruct (History_counts _ _ HH) as (H1 & _ & H3 & H4). auto.
Qed.

Lemma submission_notified_at_most_once_witness :
  length
    (List.filter isNotification
       (effectsOf 0
          (run initialState
             (blackMChosen
              ++ [ClickAddToCart; PrimaryAddSettled 0 (FetchFailed (Error "offline"))]))))
  <= 1.
Proof.
  apply (submission_notified_at_most_once
           (run initialState
              (blackMChosen
               ++ [ClickAddToCart; PrimaryAddSettled 0 (FetchFailed (Error "offline"))]))
           0).
  exists (blackMChosen
          ++ [ClickAddToCart; PrimaryAddSettled 0 (FetchFailed (Error "offline"))]).
  reflexivity.
Defined.

(** X6.  In every reachable state a submission has requested at most two
    cart additions, and every cart addition it requested has quantity 1. *)
Theorem submission_cart_additions (s : State) (n : nat) :
  Reachable s ->
  length (List.filter isCartAdd (effectsOf n s)) <= 2
  /\ forall variantId quantity,
       In (CartAdd variantId quantity) (effectsOf n s) -> quantity = 1%Z.
Proof.
  intros Hreach.
  destruct (Reachable_History s n Hreach) as [-> | HH].
  - simpl. split; [lia | intros ? ? []].
  - split; [apply (History_counts _ _ HH) | apply (History_quantities _ _ HH)].
Qed.

Lemma submission_cart_additions_witness :
  length
    (List.filter isCartAdd
       (effectsOf 0 (run initialState (blackMChosen ++ [ClickAddToCart]))))
  <= 2.
Proof.
  apply (submission_cart_additions
           (run initialState (blackMChosen ++ [ClickAddToCart])) 0).
  exists (blackMChosen ++ [ClickAddToCart]). reflexivity.
Defined.

(** ** Submissions that succeed *)





(** ** The controls *)

Section Controls.

Lemma ButtonJustified_step (s : State) (ev : Event) :
  ButtonJustified s -> ButtonJustified (step s ev).
Proof.
  unfold ButtonJustified. intros H.
  destruct ev; simpl.
  - exact H.
  - unfold productFetched. destruct (pendingOpens s) as [|k]; [exact H|].
    destruct (fetchProductDataResult o); [|exact H].
    intros _. left. reflexivity.
  - destruct (existsb _ _); [|exact H].
    unfold selectColor, updateAddToCartButton.
    cbn [selectedColor selectedSize setGlobals].
    destruct (truthy (Some color) && truthy (selectedSize s)) eqn:Hcomplete;
      cbn [buttonDisabled selectedColor selectedSize setButtonDisabled setGlobals];
      [discriminate | auto].
  - destruct (existsb _ _); [|exact H].
    unfold sizeChanged, updateAddToCartButton.
    cbn [selectedColor selectedSize setGlobals].
    destruct (truthy (selectedColor s) && truthy (Some value)) eqn:Hcomplete;
      cbn [buttonDisabled selectedColor selectedSize setButtonDisabled setGlobals];
      [discriminate | auto].
  - destruct (buttonDisabled s) eqn:Hbutton;
      [intros _; apply H; reflexivity|].
    unfold handleAddToCart.
    cbn [selectedColor selectedSize currentProduct setSubmissions].
    destruct (negb _ || negb _); [cbn; congruence|].
    destruct (findMatchingVariant _ _ _) as [[v|]|e]; try (cbn; congruence).
    intros _. right. exists (submissions s), AwaitPrimary.
    unfold_callbacks. apply lookup_insert_eq.
  - intros _. left. reflexivity.
  - destruct (modalActive s); [|exact H]. intros _. left. reflexivity.
  - destruct (closeTimers s); [exact H|]. intros _. left. reflexivity.
  - unfold primaryAddSettled.
    destruct (inflight s !! n) as [[]|]; try exact H.
    destruct (addToCartResult o); [destruct (bundleTest _ _) as [[]|]|];
      try (cbn; discriminate).
    intros _. right. exists n, AwaitJacket.
    unfold_callbacks. apply lookup_insert_eq.
  - unfold jacketFetchSettled.
    destruct (inflight s !! n) as [[]|]; try exact H.
    destruct (jacketFetchResult o) as [jacket|];
      [destruct (Product.variants jacket)|]; try (cbn; discriminate).
    intros _. right. exists n, AwaitBundleAdd.
    unfold_callbacks. apply lookup_insert_eq.
  - unfold bundleAddSettled.
    destruct (inflight s !! n) as [[]|]; try exact H.
    destruct (addToCartResult o); cbn; discriminate.
Qed.

Lemma FromControls_initialState : FromControls initialState.
Proof. repeat split; try discriminate. now left. Qed.

Lemma FromControls_same (s s' : State) :
  currentProduct s' = currentProduct s ->
  selectedColor s' = selectedColor s ->
  selectedSize s' = selectedSize s ->
  colorButtons s' = colorButtons s ->
  sizeOptions s' = sizeOptions s ->
  FromControls s -> FromControls s'.
Proof.
  unfold FromControls. intros -> -> -> -> ->. auto.
Qed.

Lemma FromControls_cleared (s s' : State) :
  currentProduct s' = None ->
  selectedColor s' = None ->
  selectedSize s' = None ->
  sizeOptions s' = sizeOptions s ->
  FromControls s -> FromControls s'.
Proof.
  unfold FromControls. intros -> -> -> -> (_ & _ & _ & Hsizes).
  repeat split; try discriminate. exact Hsizes.
Qed.

Lemma updateAddToCartButton_fields (s : State) :
  currentProduct (updateAddToCartButton s) = currentProduct s
  /\ selectedColor (updateAddToCartButton s) = selectedColor s
  /\ selectedSize (updateAddToCartButton s) = selectedSize s
  /\ colorButtons (updateAddToCartButton s) = colorButtons s
  /\ sizeOptions (updateAddToCartButton s) = sizeOptions s.
Proof.
  unfold updateAddToCartButton. destruct (_ && _); repeat split.
Qed.

Lemma FromControls_step (s : State) (ev : Event) :
  FromControls s -> FromControls (step s ev).
Proof.
  intros H.
  destruct ev; simpl.
  - revert H. apply FromControls_same; reflexivity.
  - unfold productFetched. destruct (pendingOpens s) as [|k]; [exact H|].
    destruct (fetchProductDataResult o) as [product|e].
    + repeat split; try discriminate.
      * intros p Hp. cbn in Hp. injection Hp as <-. reflexivity.
      * right. reflexivity.
    + revert H. apply FromControls_same; reflexivity.
  - destruct (existsb _ _) eqn:Hrendered; [|exact H].
    apply existsb_eqb_In in Hrendered.
    destruct H as (_ & Hsize & Hproduct & Hsizes).
    destruct (updateAddToCartButton_fields
                (setGlobals (currentProduct s) (Some color) (selectedSize s) s))
      as (Hp & Hc & Hs & Hb & Ho).
    unfold FromControls, selectColor. rewrite Hp, Hc, Hs, Hb, Ho. cbn.
    repeat split; auto. intros c Hsel. injection Hsel as <-. exact Hrendered.
  - destruct (existsb _ _) eqn:Hoffered; [|exact H].
    apply existsb_eqb_In in Hoffered.
    destruct H as (Hcolor & _ & Hproduct & Hsizes).
    destruct (updateAddToCartButton_fields
                (setGlobals (currentProduct s) (selectedColor s) (Some value) s))
      as (Hp & Hc & Hs & Hb & Ho).
    unfold FromControls, sizeChanged. rewrite Hp, Hc, Hs, Hb, Ho. cbn.
    repeat split; auto. intros v Hsel. injection Hsel as <-. exact Hoffered.
  - destruct (buttonDisabled s); [exact H|].
    revert H. apply FromControls_same;
      unfold handleAddToCart;
      cbn [selectedColor selectedSize currentProduct setSubmissions];
      (destruct (negb _ || negb _); [reflexivity|]);
      destruct (findMatchingVariant _ _ _) as [[v|]|e]; reflexivity.
  - revert H. apply FromControls_cleared; reflexivity.
  - destruct (modalActive s); [|exact H].
    revert H. apply FromControls_cleared; reflexivity.
  - destruct (closeTimers s); [exact H|].
    revert H. apply FromControls_cleared; reflexivity.
  - revert H. apply FromControls_same;
      unfold primaryAddSettled;
      (destruct (inflight s !! n) as [[]|]; try reflexivity);
      (destruct (addToCartResult o); [destruct (bundleTest _ _) as [[]|]|]);
      reflexivity.
  - revert H. apply FromControls_same;
      unfold jacketFetchSettled;
      (destruct (inflight s !! n) as [[]|]; try reflexivity);
      (destruct (jacketFetchResult o) as [jacket|];
       [destruct (Product.variants jacket)|]);
      reflexivity.
  - revert H. apply FromControls_same;
      unfold bundleAddSettled;
      (destruct (inflight s !! n) as [[]|]; try reflexivity);
      destruct (addToCartResult o); reflexivity.
Qed.

Lemma run_invariant (P : State -> Prop) :
  (forall s ev, P s -> P (step s ev)) ->
  forall evs s, P s -> P (run s evs).
Proof.
  intros Hstep evs. induction evs as [|ev evs IH]; intros s H; [exact H|].
  rewrite run_cons. apply IH, Hstep, H.
Qed.

Lemma truthy_is_Some (o : option string) :
  truthy o = true -> exists t, o = Some t /\ t <> ""%string.
Proof.
  destruct o as [t|]; [|discriminate].
  intros H. exists t. split; [reflexivity | now apply truthy_Some].
Qed.

End Controls.

(** X9.  In every reachable state a disabled add-to-cart button has a
    reason: the selection is incomplete or some submission is still in
    flight.  So with a complete selection and nothing in flight the button
    accepts a click. *)
Theorem disabled_button_is_justified (s : State) :
  Reachable s ->
  buttonDisabled s = true ->
  truthy (selectedColor s) && truthy (selectedSize s) = false
  \/ exists n stage, inflight s !! n = Some stage.
Proof.
  intros [evs ->].
  apply (run_invariant ButtonJustified ButtonJustified_step evs initialState).
  intros Hdisabled. discriminate Hdisabled.
Qed.

Lemma disabled_button_is_justified_witness :
  truthy (selectedColor (run initialState (blackMChosen ++ [ClickAddToCart])))
  && truthy (selectedSize (run initialState (blackMChosen ++ [ClickAddToCart])))
  = false
  \/ exists n stage,
       inflight (run initialState (blackMChosen ++ [ClickAddToCart])) !! n
       = Some stage.
Proof.
  apply (disabled_button_is_justified
           (run initialState (blackMChosen ++ [ClickAddToCart]))).
  - exists (blackMChosen ++ [ClickAddToCart]). reflexivity.
  - reflexivity.
Defined.

(** X10.  Whenever a click starts the primary add of a variant, the
    selected size is one of the five fixed sizes, the selected colour is
    the [option1] of some variant of the current product, and the variant
    that is added is one of that product's variants. *)
Theorem submitted_selection_is_offered (s : State) (v : Variant.t) :
  Reachable s -> Submits s v ->
  exists p c size,
    currentProduct s = Some p
    /\ selectedColor s = Some c
    /\ selectedSize s = Some size
    /\ In size SIZE_OPTIONS
    /\ (exists u, In u (Product.variants p) /\ Variant.option1 u = Some c)
    /\ In v (Product.variants p).
Proof.
  intros [evs ->] [Hcomplete Hfound].
  pose proof (run_invariant FromControls FromControls_step evs initialState
                FromControls_initialState)
    as (Hcolor & Hsize & Hproduct & Hsizes).
  apply andb_true_iff in Hcomplete as [Hc Hs].
  apply truthy_is_Some in Hc as (c & Hc & Hcne).
  apply truthy_is_Some in Hs as (size & Hs & Hsne).
  destruct (currentProduct (run initialState evs)) as [p|] eqn:Hp;
    [|discriminate Hfound].
  exists p, c, size.
  repeat split; auto.
  - specialize (Hsize size Hs).
    destruct Hsizes as [Hopts|Hopts]; rewrite Hopts in Hsize.
    + destruct Hsize as [<-|[]]. congruence.
    + destruct Hsize as [<-|Hin]; [congruence | exact Hin].
  - specialize (Hcolor c Hc). rewrite (Hproduct p eq_refl) in Hcolor.
    now apply renderColorVariants_In in Hcolor.
  - simpl in Hfound. injection Hfound as Hfound.
    now apply find_some in Hfound.
Qed.

Lemma submitted_selection_is_offered_witness :
  exists p c size,
    currentProduct (run initialState blackMChosen) = Some p
    /\ selectedColor (run initialState blackMChosen) = Some c
    /\ selectedSize (run initialState blackMChosen) = Some size
    /\ In size SIZE_OPTIONS
    /\ (exists u, In u (Product.variants p) /\ Variant.option1 u = Some c)
    /\ In blackM (Product.variants p).
Proof.
  apply (submitted_selection_is_offered (run initialState blackMChosen) blackM).
  - exists blackMChosen. reflexivity.
  - split; reflexivity.
Defined.

(** ** Closing and clicking *)

Section Closing.

Lemma successes_emit (o : Origin) (e : Effect) (s : State) :
  successes (emit o e s)
  = successes s + (if isSuccessNotification e then 1 else 0).
Proof.
  unfold successes. cbn [log emit].
  rewrite map_app, List.filter_app, length_app. simpl.
  now destruct (isSuccessNotification e).
Qed.

Lemma TimersAccounted_same (s s' : State) :
  closeTimers s' = closeTimers s -> log s' = log s ->
  TimersAccounted s -> TimersAccounted s'.
Proof. unfold TimersAccounted, successes. now intros -> ->. Qed.

Lemma onFulfilled_timers (n : nat) (s : State) :
  TimersAccounted s -> TimersAccounted (onFulfilled n s).
Proof.
  unfold TimersAccounted, onFulfilled, finally, updateCartCount, showNotification.
  intros H.
  change (S (closeTimers s)
          <= successes (emit (Submission n) CartFetch
                          (emit (Submission n) (Notification "Added to cart" success) s))).
  rewrite !successes_emit. simpl. lia.
Qed.

Lemma emit_timers (o : Origin) (e : Effect) (s : State) :
  TimersAccounted s -> TimersAccounted (emit o e s).
Proof.
  unfold TimersAccounted. rewrite successes_emit. cbn [closeTimers emit]. lia.
Qed.

Lemma TimersAccounted_step (s : State) (ev : Event) :
  TimersAccounted s -> TimersAccounted (step s ev).
Proof.
  intros H.
  destruct ev; simpl.
  - now apply emit_timers, (TimersAccounted_same s).
  - unfold productFetched. destruct (pendingOpens s) as [|k]; [exact H|].
    destruct (fetchProductDataResult o).
    + revert H. apply TimersAccounted_same; reflexivity.
    + apply emit_timers, emit_timers. revert H.
      apply TimersAccounted_same; reflexivity.
  - destruct (existsb _ _); [|exact H].
    revert H. apply TimersAccounted_same;
      unfold selectColor, updateAddToCartButton; cbn; destruct (_ && _); reflexivity.
  - destruct (existsb _ _); [|exact H].
    revert H. apply TimersAccounted_same;
      unfold sizeChanged, updateAddToCartButton; cbn; destruct (_ && _); reflexivity.
  - destruct (buttonDisabled s); [exact H|].
    unfold handleAddToCart.
    cbn [selectedColor selectedSize currentProduct setSubmissions].
    destruct (negb _ || negb _).
    { apply emit_timers. revert H. apply TimersAccounted_same; reflexivity. }
    destruct (findMatchingVariant _ _ _) as [[v|]|e].
    + unfold addToCart.
      apply (TimersAccounted_same
               (emit (Submission (submissions s)) (CartAdd (Variant.id v) 1%Z) s));
        [reflexivity | reflexivity | now apply emit_timers].
    + apply emit_timers. revert H. apply TimersAccounted_same; reflexivity.
    + apply emit_timers. revert H. apply TimersAccounted_same; reflexivity.
  - revert H. apply TimersAccounted_same; reflexivity.
  - destruct (modalActive s); [|exact H].
    revert H. apply TimersAccounted_same; reflexivity.
  - destruct (closeTimers s) as [|k] eqn:Htimers; [exact H|].
    unfold TimersAccounted in *. rewrite Htimers in H.
    cbn [closeTimers closePopup setGlobals setModalActive setCloseTimers].
    unfold successes in *. cbn [log closePopup setGlobals setModalActive setCloseTimers].
    lia.
  - unfold primaryAddSettled.
    destruct (inflight s !! n) as [[]|]; try exact H.
    destruct (addToCartResult o); [destruct (bundleTest _ _) as [[]|]|].
    + unfold autoAddSoftWinterJacket.
      eapply TimersAccounted_same; [| |apply emit_timers, emit_timers, H];
        reflexivity.
    + now apply onFulfilled_timers.
    + unfold onRejected, finally, showNotification.
      eapply TimersAccounted_same; [| |apply emit_timers, emit_timers, H];
        reflexivity.
    + unfold onRejected, finally, showNotification.
      eapply TimersAccounted_same; [| |apply emit_timers, emit_timers, H];
        reflexivity.
  - unfold jacketFetchSettled.
    destruct (inflight s !! n) as [[]|]; try exact H.
    destruct (jacketFetchResult o) as [jacket|];
      [destruct (Product.variants jacket) as [|first others]|].
    + apply onFulfilled_timers, emit_timers, H.
    + unfold addToCart.
      eapply TimersAccounted_same; [| |apply emit_timers, H]; reflexivity.
    + apply onFulfilled_timers, emit_timers, H.
  - unfold bundleAddSettled.
    destruct (inflight s !! n) as [[]|]; try exact H.
    destruct (addToCartResult o).
    + now apply onFulfilled_timers.
    + apply onFulfilled_timers, emit_timers, H.
Qed.

Lemma cartAdds_emit (o : Origin) (e : Effect) (s : State) :
  cartAdds (emit o e s) = cartAdds s ++ (if isCartAdd e then [e] else []).
Proof.
  unfold cartAdds. cbn [log emit].
  rewrite map_app, List.filter_app. simpl.
  now destruct (isCartAdd e).
Qed.

End Closing.

(** X11.  The popup only closes by itself after a success: in every
    reachable state the pending close timers are at most as many as the
    success notifications shown so far, so as long as no submission has
    succeeded a timer tick changes nothing. *)
Theorem auto_close_only_after_success (s : State) :
  Reachable s ->
  closeTimers s <= successes s
  /\ (successes s = 0 -> step s CloseTimerFires = s).
Proof.
  intros [evs ->].
  assert (H : TimersAccounted (run initialState evs)).
  { apply (run_invariant TimersAccounted TimersAccounted_step).
    unfold TimersAccounted. simpl. lia. }
  split; [exact H|].
  intros Hnone. unfold TimersAccounted in H. simpl.
  destruct (closeTimers (run initialState evs)); [reflexivity | lia].
Qed.

Lemma auto_close_only_after_success_witness :
  closeTimers (run initialState (blackMChosen ++ [ClickAddToCart]))
  <= successes (run initialState (blackMChosen ++ [ClickAddToCart])).
Proof.
  apply (auto_close_only_after_success
           (run initialState (blackMChosen ++ [ClickAddToCart]))).
  exists (blackMChosen ++ [ClickAddToCart]). reflexivity.
Defined.

(** X12.  Once a click has started a submission, further clicks on the
    button that follow with no other event in between are not delivered:
    however many there are, the state stays as the first click left it. *)
Theorem repeated_clicks_in_flight_ignored (s : State) (v : Variant.t) (k : nat) :
  Submits s v ->
  run (handleAddToCart s) (repeat ClickAddToCart k) = handleAddToCart s.
Proof.
  intros Hsub.
  induction k as [|k IH]; [reflexivity|].
  simpl repeat. rewrite run_cons.
  now rewrite (second_click_at_once_ignored s v Hsub).
Qed.

Lemma repeated_clicks_in_flight_ignored_witness :
  run (handleAddToCart (run initialState blackMChosen)) (repeat ClickAddToCart 3)
  = handleAddToCart (run initialState blackMChosen).
Proof.
  apply (repeated_clicks_in_flight_ignored (run initialState blackMChosen) blackM 3).
  split; reflexivity.
Defined.

(** X13.  [closePopup] clears the selection, so a click on the button
    right after the popup was closed starts no promise chain and requests
    no cart addition, in whatever state the popup was closed. *)
Theorem click_after_close_adds_nothing (s : State) :
  inflight (step (closePopup s) ClickAddToCart) = inflight s
  /\ cartAdds (step (closePopup s) ClickAddToCart) = cartAdds s.
Proof.
  simpl. destruct (buttonDisabled s); [split; reflexivity|].
  split; [reflexivity|].
  unfold handleAddToCart, showNotification.
  cbn [selectedColor selectedSize closePopup setGlobals setModalActive
       setSubmissions truthy negb orb].
  rewrite cartAdds_emit. simpl. now rewrite app_nil_r.
Qed.
